(** * todoist_mcp: a shallow embedding of the Todoist MCP server

    The program is one Python module, [todoist_mcp.py]: twelve tool
    handlers, each a single authenticated HTTP round trip whose decoded
    JSON answer is rendered as markdown or re-serialised, and whose
    failures are turned into an "Error: ..." string.

    Conventions of the embedding
    - a Python [str] is a list of Unicode code points, so that [len] and
      slicing count what Python counts;
    - a decoded JSON value is the inductive [json]; numbers are integers
      (floating point numbers are not modelled);
    - an exception (a subclass of [Exception]) is a value of [exn], and a
      computation that may raise returns [result];
    - the handlers run in a small monad that threads the list of HTTP
      requests sent so far;
    - behaviour of the interpreter and of library code that the module
      only calls ([repr], [json.dumps], [datetime.strptime], the text of
      a [TypeError]) is an operation of the class [Runtime]. *)

From Stdlib Require Import String Ascii ZArith NArith List Bool Lia.
From Stdlib Require Import DecimalString.
Import ListNotations.

Set Implicit Arguments.
Set Warnings "-register-all".

(** ** Python strings *)

Definition char := N.
Definition str := list char.

Definition lit (s : string) : str :=
  map N_of_ascii (list_ascii_of_string s).

Fixpoint str_eqb (a b : str) : bool :=
  match a, b with
  | [], [] => true
  | c :: a', d :: b' => N.eqb c d && str_eqb a' b'
  | _, _ => false
  end.

(** [len(s)] *)
Definition len (s : str) : Z := Z.of_nat (length s).

(** [s[:n]] on any sequence, for every integer [n] (a negative bound
    counts from the end). *)
Definition slice_to {A} (l : list A) (n : Z) : list A :=
  if (0 <=? n)%Z then firstn (Z.to_nat n) l
  else firstn (length l - Z.to_nat (- n)) l.

(** [sep.join(parts)] *)
Fixpoint join (sep : str) (parts : list str) : str :=
  match parts with
  | [] => []
  | [p] => p
  | p :: rest => p ++ sep ++ join sep rest
  end.

(** [s.startswith(p)] *)
Fixpoint startswith (p s : str) : bool :=
  match p, s with
  | [], _ => true
  | c :: p', d :: s' => N.eqb c d && startswith p' s'
  | _ :: _, [] => false
  end.

(** [s.endswith(p)] *)
Definition endswith (p s : str) : bool :=
  startswith (rev p) (rev s).

(** [str(n)] for an integer. *)
Definition str_of_Z (n : Z) : str :=
  lit (NilZero.string_of_int (Z.to_int n)).

Definition str_of_nat (n : nat) : str := str_of_Z (Z.of_nat n).

(** The non-ASCII characters of the module's literals. *)
Definition ARROW : str := [8594%N].           (* U+2192 *)
Definition STAR : str := [11088%N].           (* U+2B50 *)
Definition CHECK_MARK : str := [9989%N].      (* U+2705 *)
Definition WASTEBASKET : str := [128465%N; 65039%N]. (* U+1F5D1 U+FE0F *)
Definition RED_CIRCLE : str := [128308%N].    (* U+1F534 *)
Definition ORANGE_CIRCLE : str := [128992%N]. (* U+1F7E0 *)
Definition BLUE_CIRCLE : str := [128309%N].   (* U+1F535 *)

(** ** Decoded JSON values *)

Inductive json : Type :=
| JNull
| JBool (b : bool)
| JNum (n : Z)
| JStr (s : str)
| JArr (items : list json)
| JObj (fields : list (str * json)).

(** A Python [dict] with string keys, in insertion order. *)
Definition dict := list (str * json).

Fixpoint lookup (k : str) (d : dict) : option json :=
  match d with
  | [] => None
  | (k', v) :: d' => if str_eqb k k' then Some v else lookup k d'
  end.

(** [d[k] = v] *)
Fixpoint dict_set (k : str) (v : json) (d : dict) : dict :=
  match d with
  | [] => [(k, v)]
  | (k', v') :: d' =>
      if str_eqb k k' then (k, v) :: d' else (k', v') :: dict_set k v d'
  end.

(** Truth value of a Python object, as tested by [if x] and [not x]. *)
Definition truthy (v : json) : bool :=
  match v with
  | JNull => false
  | JBool b => b
  | JNum n => negb (n =? 0)%Z
  | JStr s => match s with [] => false | _ => true end
  | JArr l => match l with [] => false | _ => true end
  | JObj d => match d with [] => false | _ => true end
  end.

(** [x == n] for an integer literal [n]. *)
Definition eq_int (v : json) (n : Z) : bool :=
  match v with
  | JNum m => (m =? n)%Z
  | JBool b => ((if b then 1 else 0) =? n)%Z
  | _ => false
  end.

(** ** Exceptions *)

(** The classes [_handle_api_error] tells apart with [isinstance]; each
    constructor stands for the class and its subclasses. *)
Inductive exn : Type :=
| HTTPStatusError (status : Z)
| TimeoutException
| ValueError (msg : str)
| OtherException (type_name msg : str).

Definition result (A : Type) : Type := (exn + A)%type.

Definition ok {A} (a : A) : result A := inr a.
Definition throw {A} (e : exn) : result A := inl e.

Definition rbind {A B} (m : result A) (k : A -> result B) : result B :=
  match m with
  | inl e => inl e
  | inr a => k a
  end.

Declare Scope result_scope.
Delimit Scope result_scope with res.
Notation "x <- m ;; k" := (rbind m (fun x => k))
  (at level 61, m at next level, right associativity) : result_scope.

(** ** Interpreter and libraries *)

(** Operations that fail on a value of the wrong type. *)
Inductive operation : Type :=
| OpGet         (* v.get(...) *)
| OpSubscript   (* v[k], v[:n] *)
| OpIter        (* for x in v *)
| OpLen         (* len(v) *)
| OpJoin        (* an item of sep.join(...) that is not a str *)
| OpConcat      (* v + "..." *)
| OpHash.       (* v used as a dict key *)

Class Runtime : Type := {
  (** [str(v)] for a list or a dict *)
  py_repr : json -> str;
  (** the exception raised when [op] does not apply to [v] *)
  py_fault : operation -> json -> exn;
  (** [json.dumps(v, indent=2)] *)
  json_dumps : json -> str;
  (** the characters removed by [str_strip_whitespace] *)
  is_space : char -> bool;
  (** [datetime.strptime(v, "%Y-%m-%d")] succeeds *)
  strptime_ymd : str -> bool
}.

(** ** Operations on Python values *)

Section Values.
Context {RT : Runtime}.

Definition NL : str := [10%N].
Definition QUOTE : str := [39%N].

(** [str(v)], as an f-string applies it to a replacement field. *)
Definition py_str (v : json) : str :=
  match v with
  | JNull => lit "None"
  | JBool true => lit "True"
  | JBool false => lit "False"
  | JNum n => str_of_Z n
  | JStr s => s
  | JArr _ | JObj _ => py_repr v
  end.

Definition KeyError (k : str) : exn :=
  OtherException (lit "KeyError") (QUOTE ++ k ++ QUOTE).

(** [v.get(k)]: [None] when the key is missing. *)
Definition py_get (v : json) (k : str) : result json :=
  match v with
  | JObj d => ok (match lookup k d with Some x => x | None => JNull end)
  | _ => throw (py_fault OpGet v)
  end.

(** [v.get(k, default)] *)
Definition py_get_default (v : json) (k : str) (default : json)
  : result json :=
  match v with
  | JObj d => ok (match lookup k d with Some x => x | None => default end)
  | _ => throw (py_fault OpGet v)
  end.

(** [v[k]] for a string key. *)
Definition py_subscript (v : json) (k : str) : result json :=
  match v with
  | JObj d =>
      match lookup k d with
      | Some x => ok x
      | None => throw (KeyError k)
      end
  | _ => throw (py_fault OpSubscript v)
  end.

(** [v[:n]] *)
Definition py_slice_to (v : json) (n : Z) : result json :=
  match v with
  | JArr l => ok (JArr (slice_to l n))
  | JStr s => ok (JStr (slice_to s n))
  | _ => throw (py_fault OpSubscript v)
  end.

(** [len(v)] *)
Definition py_len (v : json) : result Z :=
  match v with
  | JStr s => ok (len s)
  | JArr l => ok (Z.of_nat (length l))
  | JObj d => ok (Z.of_nat (length d))
  | _ => throw (py_fault OpLen v)
  end.

(** The items [for x in v] visits: the elements of a list, the keys of
    a dict, the characters of a string. *)
Definition py_iter (v : json) : result (list json) :=
  match v with
  | JArr l => ok l
  | JObj d => ok (map (fun kv => JStr (fst kv)) d)
  | JStr s => ok (map (fun c => JStr [c]) s)
  | _ => throw (py_fault OpIter v)
  end.

(** [v + s] for a string [s]. *)
Definition py_concat (v : json) (s : str) : result json :=
  match v with
  | JStr s0 => ok (JStr (s0 ++ s))
  | _ => throw (py_fault OpConcat v)
  end.

(** The items of [sep.join(items)] must all be strings. *)
Fixpoint all_str (items : list json) : result (list str) :=
  match items with
  | [] => ok []
  | JStr s :: rest =>
      match all_str rest with
      | inl e => inl e
      | inr l => ok (s :: l)
      end
  | v :: _ => throw (py_fault OpJoin v)
  end.

(** [sep.join(v)] *)
Definition py_join (sep : str) (v : json) : result str :=
  (items <- py_iter v ;;
   parts <- all_str items ;;
   ok (join sep parts))%res.

(** [x or default] on strings. *)
Definition str_or (x default : str) : str :=
  match x with [] => default | _ => x end.

(** A [for] loop that extends a list of lines, stopped by the first
    exception. *)
Fixpoint for_each {A B} (f : A -> result (list B)) (l : list A)
  : result (list B) :=
  match l with
  | [] => ok []
  | x :: rest =>
      match f x with
      | inl e => inl e
      | inr ys =>
          match for_each f rest with
          | inl e => inl e
          | inr zs => ok (ys ++ zs)
          end
      end
  end.

End Values.

(** ** Constants and enumerations *)

Definition API_BASE_URL : str := lit "https://api.todoist.com/rest/v2".
Definition CHARACTER_LIMIT : Z := 25000.

Inductive ResponseFormat : Type := MARKDOWN | JSON.

Inductive TaskPriority : Type := P1 | P2 | P3 | P4.

Definition priority_value (p : TaskPriority) : Z :=
  match p with P1 => 1 | P2 => 2 | P3 => 3 | P4 => 4 end.

(** Truth value of an [Optional[str]] field. *)
Definition some_text (o : option str) : bool :=
  match o with
  | Some (_ :: _) => true
  | _ => false
  end.

(** Truth value of an [Optional[TaskPriority]] field: [TaskPriority]
    mixes in [int], so a member is true when its value is not zero. *)
Definition some_priority (o : option TaskPriority) : bool :=
  match o with
  | Some p => negb (priority_value p =? 0)%Z
  | None => false
  end.

(** ** Input models

    Each module is one pydantic model: [t] is a validated instance, as
    the handler receives it.  Where a claim depends on the declared
    constraints, [raw] holds the arguments as supplied ([None] for an
    argument left out; integers and enumeration members already
    decoded) and [validate] applies [str_strip_whitespace], the [Field]
    bounds and the validators; [None] means the call is refused before
    the handler runs. *)

Section Inputs.
Context {RT : Runtime}.

Fixpoint lstrip (s : str) : str :=
  match s with
  | c :: s' => if is_space c then lstrip s' else s
  | [] => []
  end.

Definition strip (s : str) : str := rev (lstrip (rev (lstrip s))).

Definition to_priority (n : Z) : option TaskPriority :=
  if (n =? 1)%Z then Some P1
  else if (n =? 2)%Z then Some P2
  else if (n =? 3)%Z then Some P3
  else if (n =? 4)%Z then Some P4
  else None.

(** An optional field whose value, when given, must pass [check]. *)
Definition check_opt {A} (check : A -> bool) (o : option A) : bool :=
  match o with
  | Some a => check a
  | None => true
  end.

Definition max_length (n : Z) (s : str) : bool := (len s <=? n)%Z.
Definition min_length (n : Z) (s : str) : bool := (n <=? len s)%Z.

End Inputs.

Module ListProjectsInput.
Record t : Type := { response_format : ResponseFormat }.
End ListProjectsInput.

Module GetProjectInput.
Record t : Type := { project_id : str; response_format : ResponseFormat }.
End GetProjectInput.

Module CreateProjectInput.
Record t : Type := {
  name : str;
  parent_id : option str;
  color : option str;
  is_favorite : bool
}.
End CreateProjectInput.

Module ListTasksInput.
Record t : Type := {
  project_id : option str;
  label : option str;
  filter : option str;
  limit : Z;
  response_format : ResponseFormat
}.

Record raw : Type := {
  raw_project_id : option str;
  raw_label : option str;
  raw_filter : option str;
  raw_limit : option Z;
  raw_response_format : option ResponseFormat
}.

Definition default_limit : Z := 50.

Definition validate {RT : Runtime} (r : raw) : option t :=
  let lim := match raw_limit r with Some n => n | None => default_limit end in
  if ((1 <=? lim) && (lim <=? 200))%Z then
    Some {| project_id := option_map strip (raw_project_id r);
            label := option_map strip (raw_label r);
            filter := option_map strip (raw_filter r);
            limit := lim;
            response_format :=
              match raw_response_format r with
              | Some f => f
              | None => MARKDOWN
              end |}
  else None.
End ListTasksInput.

Module GetTaskInput.
Record t : Type := { task_id : str; response_format : ResponseFormat }.
End GetTaskInput.

Module CreateTaskInput.
Record t : Type := {
  content : str;
  description : option str;
  project_id : option str;
  due_string : option str;
  due_date : option str;
  priority : option TaskPriority;
  labels : option (list str);
  parent_id : option str
}.

Record raw : Type := {
  raw_content : str;
  raw_description : option str;
  raw_project_id : option str;
  raw_due_string : option str;
  raw_due_date : option str;
  raw_priority : option Z;
  raw_labels : option (list str);
  raw_parent_id : option str
}.

(** The [field_validator] of [due_date]: a non-empty value must parse
    as a date. *)
Definition validate_due_date {RT : Runtime} (v : option str) : bool :=
  if some_text v then check_opt strptime_ymd v else true.

Definition validate {RT : Runtime} (r : raw) : option t :=
  let c := strip (raw_content r) in
  let d := option_map strip (raw_description r) in
  let dd := option_map strip (raw_due_date r) in
  if min_length 1 c && max_length 5000 c
     && check_opt (max_length 16000) d
     && validate_due_date dd
  then
    match raw_priority r with
    | None =>
        Some {| content := c; description := d;
                project_id := option_map strip (raw_project_id r);
                due_string := option_map strip (raw_due_string r);
                due_date := dd; priority := None;
                labels := option_map (map strip) (raw_labels r);
                parent_id := option_map strip (raw_parent_id r) |}
    | Some n =>
        match to_priority n with
        | None => None
        | Some p =>
            Some {| content := c; description := d;
                    project_id := option_map strip (raw_project_id r);
                    due_string := option_map strip (raw_due_string r);
                    due_date := dd; priority := Some p;
                    labels := option_map (map strip) (raw_labels r);
                    parent_id := option_map strip (raw_parent_id r) |}
        end
    end
  else None.
End CreateTaskInput.

Module UpdateTaskInput.
Record t : Type := {
  task_id : str;
  content : option str;
  description : option str;
  due_string : option str;
  due_date : option str;
  priority : option TaskPriority;
  labels : option (list str)
}.

Record raw : Type := {
  raw_task_id : str;
  raw_content : option str;
  raw_description : option str;
  raw_due_string : option str;
  raw_due_date : option str;
  raw_priority : option Z;
  raw_labels : option (list str)
}.

Definition validate {RT : Runtime} (r : raw) : option t :=
  let i := strip (raw_task_id r) in
  let c := option_map strip (raw_content r) in
  let d := option_map strip (raw_description r) in
  if min_length 1 i
     && check_opt (max_length 5000) c
     && check_opt (max_length 16000) d
  then
    match raw_priority r with
    | None =>
        Some {| task_id := i; content := c; description := d;
                due_string := option_map strip (raw_due_string r);
                due_date := option_map strip (raw_due_date r);
                priority := None;
                labels := option_map (map strip) (raw_labels r) |}
    | Some n =>
        match to_priority n with
        | None => None
        | Some p =>
            Some {| task_id := i; content := c; description := d;
                    due_string := option_map strip (raw_due_string r);
                    due_date := option_map strip (raw_due_date r);
                    priority := Some p;
                    labels := option_map (map strip) (raw_labels r) |}
        end
    end
  else None.
End UpdateTaskInput.

Module CompleteTaskInput.
Record t : Type := { task_id : str }.
End CompleteTaskInput.

Module ReopenTaskInput.
Record t : Type := { task_id : str }.
End ReopenTaskInput.

Module DeleteTaskInput.
Record t : Type := { task_id : str }.
End DeleteTaskInput.

Module ListLabelsInput.
Record t : Type := { response_format : ResponseFormat }.
End ListLabelsInput.

Module CreateLabelInput.
Record t : Type := {
  name : str;
  color : option str;
  is_favorite : bool
}.
End CreateLabelInput.

(** ** The outside world and the handlers' monad *)

(** The arguments of one call of [client.request]: method, URL string,
    [headers], [json], [params] and [timeout], as the module passes
    them.  What the HTTP client then puts on the wire (the URL after
    normalisation, the headers it adds) is not part of the model. *)
Record request : Type := {
  req_method : str;
  req_url : str;
  req_headers : list (str * str);
  req_json : option dict;
  req_params : option dict;
  req_timeout : Z
}.

(** What [client.request] does with these arguments: it returns a
    response with a status code, whose body [response.json()] decodes or
    rejects, or it raises (a timeout, a connection error). *)
Inductive reply : Type :=
| Answer (status : Z) (decoded : result json)
| Failure (e : exn).

(** One state of the outside world: [environ] is what [os.environ.get]
    returns, [send] is how [client.request] behaves in that same state
    (the server, the network, and the settings the HTTP client takes
    from its own environment, such as proxies).  The properties below
    are about one world at a time. *)
Record world : Type := {
  environ : str -> option str;
  send : request -> reply
}.

(** A handler computation: it may raise, and it extends the list of
    requests sent so far, which survives an exception. *)
Definition Eff (A : Type) : Type := list request -> result A * list request.

Definition eret {A} (a : A) : Eff A := fun log => (inr a, log).

Definition ebind {A B} (m : Eff A) (k : A -> Eff B) : Eff B :=
  fun log =>
    match m log with
    | (inl e, log') => (inl e, log')
    | (inr a, log') => k a log'
    end.

Definition lift {A} (r : result A) : Eff A := fun log => (r, log).

Declare Scope eff_scope.
Delimit Scope eff_scope with eff.
Notation "x <- m ;; k" := (ebind m (fun x => k))
  (at level 61, m at next level, right associativity) : eff_scope.

(** ** Shared utilities *)

Definition TOKEN_VAR : str := lit "TODOIST_API_TOKEN".

Definition TOKEN_MESSAGE : str :=
  lit "TODOIST_API_TOKEN environment variable not set. "
  ++ lit "Get your token from: Todoist Settings " ++ ARROW
  ++ lit " Integrations " ++ ARROW ++ lit " Developer " ++ ARROW
  ++ lit " API token".

Definition _get_api_token (w : world) : result str :=
  let token := environ w TOKEN_VAR in
  if negb (some_text token) then throw (ValueError TOKEN_MESSAGE)
  else ok (match token with Some t => t | None => [] end).

(** [response.raise_for_status()] lets the 2xx codes through. *)
Definition is_success (status : Z) : bool :=
  ((200 <=? status) && (status <=? 299))%Z.

Definition _make_api_request (w : world) (endpoint method : str)
    (json_data params : option dict) : Eff json :=
  fun log =>
    match _get_api_token w with
    | inl e => (inl e, log)
    | inr token =>
        let headers :=
          [(lit "Authorization", lit "Bearer " ++ token);
           (lit "Content-Type", lit "application/json")] in
        let req :=
          {| req_method := method;
             req_url := API_BASE_URL ++ lit "/" ++ endpoint;
             req_headers := headers;
             req_json := json_data;
             req_params := params;
             req_timeout := 30 |} in
        let log' := log ++ [req] in
        match send w req with
        | Failure e => (inl e, log')
        | Answer status decoded =>
            if negb (is_success status) then
              (inl (HTTPStatusError status), log')
            else if (status =? 204)%Z then (inr JNull, log')
            else (decoded, log')
        end
    end.

Definition _handle_api_error (e : exn) : str :=
  match e with
  | HTTPStatusError status =>
      if (status =? 400)%Z then
        lit "Error: Invalid request. Check your parameters are correct."
      else if (status =? 401)%Z then
        lit "Error: Invalid API token. Check TODOIST_API_TOKEN is correct."
      else if (status =? 403)%Z then
        lit "Error: Permission denied. You may not have access to this resource."
      else if (status =? 404)%Z then
        lit "Error: Resource not found. Check the ID is correct."
      else if (status =? 429)%Z then
        lit "Error: Rate limit exceeded. Please wait before making more requests."
      else if (status >=? 500)%Z then
        lit "Error: Todoist server error. Please try again later."
      else lit "Error: API request failed with status " ++ str_of_Z status
  | TimeoutException => lit "Error: Request timed out. Please try again."
  | ValueError msg => lit "Error: " ++ msg
  | OtherException type_name msg =>
      lit "Error: " ++ type_name ++ lit ": " ++ msg
  end.

Definition CHARACTER_NOTICE (item_count : Z) : str :=
  NL ++ NL ++ lit "---" ++ NL ++ lit "**Response truncated** ("
  ++ str_of_Z item_count ++ lit " items). Use filters to narrow results.".

Definition _truncate_response (result : str) (item_count : Z) : str :=
  if (len result >? CHARACTER_LIMIT)%Z then
    slice_to result (CHARACTER_LIMIT - 200) ++ CHARACTER_NOTICE item_count
  else result.

Section Rendering.
Context {RT : Runtime}.

(** [due] is the value of [t.get("due")]: a dict or [None].  The value
    returned is the one the caller puts in an f-string. *)
Definition _format_due (due : json) : result json :=
  if negb (truthy due) then ok (JStr (lit "No due date"))
  else
    (date_str <- py_get_default due (lit "date") (JStr []) ;;
     dt <- py_get due (lit "datetime") ;;
     if truthy dt then py_subscript due (lit "datetime")
     else
       s <- py_get due (lit "string") ;;
       if truthy s then
         v <- py_subscript due (lit "string") ;;
         ok (JStr (py_str v ++ lit " (" ++ py_str date_str ++ lit ")"))
       else ok date_str)%res.

(** The dict literal of [_priority_label]. *)
Definition priority_labels : list (Z * str) :=
  [(1, lit "P4 (lowest)"); (2, lit "P3"); (3, lit "P2");
   (4, lit "P1 (highest)")]%Z.

Fixpoint labels_get (k : Z) (table : list (Z * str)) (default : str) : str :=
  match table with
  | [] => default
  | (k', v) :: rest => if (k =? k')%Z then v else labels_get k rest default
  end.

(** [labels.get(priority, str(priority))]: an integer (or a boolean,
    which hashes as 0 or 1) is looked up, a list or dict cannot be a
    key, any other value is absent from the table. *)
Definition _priority_label (priority : json) : result str :=
  let default := py_str priority in
  match priority with
  | JNum n => ok (labels_get n priority_labels default)
  | JBool b => ok (labels_get (if b then 1 else 0)%Z priority_labels default)
  | JArr _ | JObj _ => throw (py_fault OpHash priority)
  | JNull | JStr _ => ok default
  end.

End Rendering.

(** ** The tools

    Every handler is [try: body / except Exception as e: return
    _handle_api_error(e)].  A handler's result is the string returned
    together with the requests it sent. *)

Definition outcome : Type := (str * list request)%type.

Definition handled (body : Eff str) : outcome :=
  match body [] with
  | (inr s, log) => (s, log)
  | (inl e, log) => (_handle_api_error e, log)
  end.

Definition opt_str (o : option str) : json :=
  match o with
  | Some s => JStr s
  | None => JNull
  end.

Definition opt_list (o : option (list str)) : json :=
  match o with
  | Some l => JArr (map JStr l)
  | None => JNull
  end.

(** [if cond: data[k] = v] *)
Definition set_if (cond : bool) (k : str) (v : json) (data : dict) : dict :=
  if cond then dict_set k v data else data.

Section Tools.
Context {RT : Runtime}.

(** *** Projects *)

Definition project_lines (p : json) : result (list str) :=
  (fav <- py_get p (lit "is_favorite") ;;
   let favorite := if truthy fav then lit " " ++ STAR else [] in
   par <- py_get p (lit "parent_id") ;;
   let indent := if truthy par then lit "  " else [] in
   name <- py_subscript p (lit "name") ;;
   id <- py_subscript p (lit "id") ;;
   let line := indent ++ lit "- **" ++ py_str name ++ lit "**" ++ favorite
                 ++ lit " (ID: `" ++ py_str id ++ lit "`)" in
   cc <- py_get p (lit "comment_count") ;;
   if truthy cc then
     c <- py_subscript p (lit "comment_count") ;;
     ok [line; indent ++ lit "  - " ++ py_str c ++ lit " comments"]
   else ok [line])%res.

Definition render_projects (projects : json) : result str :=
  (items <- py_iter projects ;;
   lines <- for_each project_lines items ;;
   n <- py_len projects ;;
   ok (_truncate_response
         (join NL ([lit "# Todoist Projects"; []] ++ lines)) n))%res.

Definition list_projects_body (w : world) (params : ListProjectsInput.t)
  : Eff str :=
  (projects <- _make_api_request w (lit "projects") (lit "GET") None None ;;
   if negb (truthy projects) then eret (lit "No projects found.")
   else
     match ListProjectsInput.response_format params with
     | JSON => eret (json_dumps projects)
     | MARKDOWN => lift (render_projects projects)
     end)%eff.

Definition todoist_list_projects (w : world) (params : ListProjectsInput.t)
  : outcome := handled (list_projects_body w params).

Definition yes_no (v : json) : str :=
  if truthy v then lit "Yes" else lit "No".

Definition render_project (project : json) : result str :=
  (name <- py_subscript project (lit "name") ;;
   id <- py_subscript project (lit "id") ;;
   color <- py_get_default project (lit "color") (JStr (lit "default")) ;;
   fav <- py_get project (lit "is_favorite") ;;
   shared <- py_get project (lit "is_shared") ;;
   cc <- py_get_default project (lit "comment_count") (JNum 0) ;;
   let lines :=
     [lit "# " ++ py_str name;
      [];
      lit "- **ID**: `" ++ py_str id ++ lit "`";
      lit "- **Color**: " ++ py_str color;
      lit "- **Favorite**: " ++ yes_no fav;
      lit "- **Shared**: " ++ yes_no shared;
      lit "- **Comments**: " ++ py_str cc] in
   par <- py_get project (lit "parent_id") ;;
   if truthy par then
     v <- py_subscript project (lit "parent_id") ;;
     ok (join NL (lines ++ [lit "- **Parent Project**: `" ++ py_str v
                              ++ lit "`"]))
   else ok (join NL lines))%res.

Definition get_project_body (w : world) (params : GetProjectInput.t)
  : Eff str :=
  (project <- _make_api_request w
                (lit "projects/" ++ GetProjectInput.project_id params)
                (lit "GET") None None ;;
   match GetProjectInput.response_format params with
   | JSON => eret (json_dumps project)
   | MARKDOWN => lift (render_project project)
   end)%eff.

Definition todoist_get_project (w : world) (params : GetProjectInput.t)
  : outcome := handled (get_project_body w params).

Definition create_project_data (params : CreateProjectInput.t) : dict :=
  let data := [(lit "name", JStr (CreateProjectInput.name params))] in
  let data := set_if (some_text (CreateProjectInput.parent_id params))
                (lit "parent_id")
                (opt_str (CreateProjectInput.parent_id params)) data in
  let data := set_if (some_text (CreateProjectInput.color params))
                (lit "color")
                (opt_str (CreateProjectInput.color params)) data in
  set_if (CreateProjectInput.is_favorite params) (lit "is_favorite")
    (JBool (CreateProjectInput.is_favorite params)) data.

(** The confirmation line shared by the create and update tools:
    [f"... {what} **{x[key]}**{extra} (ID: `{x['id']}`)"]. *)
Definition confirm (what key : str) (x : json) (extra : str) : result str :=
  (shown <- py_subscript x key ;;
   id <- py_subscript x (lit "id") ;;
   ok (CHECK_MARK ++ lit " " ++ what ++ lit " **" ++ py_str shown ++ lit "**"
         ++ extra ++ lit " (ID: `" ++ py_str id ++ lit "`)"))%res.

Definition create_project_body (w : world) (params : CreateProjectInput.t)
  : Eff str :=
  (project <- _make_api_request w (lit "projects") (lit "POST")
                (Some (create_project_data params)) None ;;
   lift (confirm (lit "Created project") (lit "name") project []))%eff.

Definition todoist_create_project (w : world) (params : CreateProjectInput.t)
  : outcome := handled (create_project_body w params).

(** *** Tasks *)

Definition list_tasks_query (params : ListTasksInput.t) : dict :=
  let q := [] in
  let q := set_if (some_text (ListTasksInput.project_id params))
             (lit "project_id")
             (opt_str (ListTasksInput.project_id params)) q in
  let q := set_if (some_text (ListTasksInput.label params)) (lit "label")
             (opt_str (ListTasksInput.label params)) q in
  set_if (some_text (ListTasksInput.filter params)) (lit "filter")
    (opt_str (ListTasksInput.filter params)) q.

Definition priority_mark (pr : json) : str :=
  if eq_int pr 4 then RED_CIRCLE
  else if eq_int pr 3 then ORANGE_CIRCLE
  else if eq_int pr 2 then BLUE_CIRCLE
  else [].

(** [", ".join(t.get("labels", [])) or "none"] *)
Definition labels_text (t : json) : result str :=
  (lv <- py_get_default t (lit "labels") (JArr []) ;;
   joined <- py_join (lit ", ") lv ;;
   ok (str_or joined (lit "none")))%res.

(** The description as the list view shows it:
    [t["description"][:200] + "..." if len(t.get("description", "")) > 200
     else t["description"]]. *)
Definition list_description (t : json) : result json :=
  (dl <- py_get_default t (lit "description") (JStr []) ;;
   n <- py_len dl ;;
   if (n >? 200)%Z then
     v <- py_subscript t (lit "description") ;;
     cut <- py_slice_to v 200 ;;
     py_concat cut (lit "...")
   else py_subscript t (lit "description"))%res.

(** The lines one task adds to the list view. *)
Definition task_lines (t : json) : result (list str) :=
  (pr <- py_get t (lit "priority") ;;
   let priority := priority_mark pr in
   d <- py_get t (lit "due") ;;
   due <- _format_due d ;;
   labels <- labels_text t ;;
   content <- py_subscript t (lit "content") ;;
   id <- py_subscript t (lit "id") ;;
   pv <- py_get_default t (lit "priority") (JNum 1) ;;
   pl <- _priority_label pv ;;
   let head :=
     [lit "### " ++ priority ++ lit " " ++ py_str content;
      lit "- **ID**: `" ++ py_str id ++ lit "`";
      lit "- **Due**: " ++ py_str due;
      lit "- **Priority**: " ++ pl;
      lit "- **Labels**: " ++ labels] in
   desc <- py_get t (lit "description") ;;
   if truthy desc then
     shown <- list_description t ;;
     ok (head ++ [lit "- **Description**: " ++ py_str shown; []])
   else ok (head ++ [[]]))%res.

(** The markdown view of the tasks kept after the slice. *)
Definition render_tasks (tasks : json) : result str :=
  (n <- py_len tasks ;;
   let header :=
     [lit "# Todoist Tasks";
      lit "*Showing " ++ str_of_Z n ++ lit " tasks*";
      []] in
   items <- py_iter tasks ;;
   lines <- for_each task_lines items ;;
   ok (_truncate_response (join NL (header ++ lines)) n))%res.

(** What the handler does with the decoded answer. *)
Definition list_tasks_view (params : ListTasksInput.t) (tasks : json)
  : result str :=
  if negb (truthy tasks) then ok (lit "No tasks found matching your criteria.")
  else
    (tasks <- py_slice_to tasks (ListTasksInput.limit params) ;;
     match ListTasksInput.response_format params with
     | JSON => ok (json_dumps tasks)
     | MARKDOWN => render_tasks tasks
     end)%res.

Definition list_tasks_body (w : world) (params : ListTasksInput.t)
  : Eff str :=
  (tasks <- _make_api_request w (lit "tasks") (lit "GET") None
              (Some (list_tasks_query params)) ;;
   lift (list_tasks_view params tasks))%eff.

Definition todoist_list_tasks (w : world) (params : ListTasksInput.t)
  : outcome := handled (list_tasks_body w params).

(** The lines of the detail view, before they are joined; the
    description is appended as the value it is. *)
Definition task_detail_lines (task : json) : result (list json) :=
  (content <- py_subscript task (lit "content") ;;
   id <- py_subscript task (lit "id") ;;
   project <- py_get_default task (lit "project_id") (JStr (lit "Inbox")) ;;
   d <- py_get task (lit "due") ;;
   due <- _format_due d ;;
   pv <- py_get_default task (lit "priority") (JNum 1) ;;
   pl <- _priority_label pv ;;
   labels <- labels_text task ;;
   created <- py_get_default task (lit "created_at") (JStr (lit "unknown")) ;;
   let lines :=
     [JStr (lit "# " ++ py_str content);
      JStr [];
      JStr (lit "- **ID**: `" ++ py_str id ++ lit "`");
      JStr (lit "- **Project**: `" ++ py_str project ++ lit "`");
      JStr (lit "- **Due**: " ++ py_str due);
      JStr (lit "- **Priority**: " ++ pl);
      JStr (lit "- **Labels**: " ++ labels);
      JStr (lit "- **Created**: " ++ py_str created)] in
   desc <- py_get task (lit "description") ;;
   lines <- (if truthy desc then
               v <- py_subscript task (lit "description") ;;
               ok (lines ++ [JStr []; JStr (lit "## Description"); v])
             else ok lines) ;;
   par <- py_get task (lit "parent_id") ;;
   if truthy par then
     v <- py_subscript task (lit "parent_id") ;;
     ok (lines ++ [JStr (lit "- **Parent Task**: `" ++ py_str v ++ lit "`")])
   else ok lines)%res.

Definition render_task (task : json) : result str :=
  (lines <- task_detail_lines task ;;
   py_join NL (JArr lines))%res.

Definition get_task_body (w : world) (params : GetTaskInput.t) : Eff str :=
  (task <- _make_api_request w
             (lit "tasks/" ++ GetTaskInput.task_id params)
             (lit "GET") None None ;;
   match GetTaskInput.response_format params with
   | JSON => eret (json_dumps task)
   | MARKDOWN => lift (render_task task)
   end)%eff.

Definition todoist_get_task (w : world) (params : GetTaskInput.t)
  : outcome := handled (get_task_body w params).

(** [if a: data["due_string"] = a  elif b: data["due_date"] = b] *)
Definition set_due (due_string due_date : option str) (data : dict) : dict :=
  if some_text due_string then
    dict_set (lit "due_string") (opt_str due_string) data
  else if some_text due_date then
    dict_set (lit "due_date") (opt_str due_date) data
  else data.

Definition opt_priority (o : option TaskPriority) : json :=
  match o with
  | Some p => JNum (priority_value p)
  | None => JNull
  end.

Definition create_task_data (params : CreateTaskInput.t) : dict :=
  let data := [(lit "content", JStr (CreateTaskInput.content params))] in
  let data := set_if (some_text (CreateTaskInput.description params))
                (lit "description")
                (opt_str (CreateTaskInput.description params)) data in
  let data := set_if (some_text (CreateTaskInput.project_id params))
                (lit "project_id")
                (opt_str (CreateTaskInput.project_id params)) data in
  let data := set_due (CreateTaskInput.due_string params)
                (CreateTaskInput.due_date params) data in
  let data := set_if (some_priority (CreateTaskInput.priority params))
                (lit "priority")
                (opt_priority (CreateTaskInput.priority params)) data in
  let data := set_if (truthy (opt_list (CreateTaskInput.labels params)))
                (lit "labels")
                (opt_list (CreateTaskInput.labels params)) data in
  set_if (some_text (CreateTaskInput.parent_id params)) (lit "parent_id")
    (opt_str (CreateTaskInput.parent_id params)) data.

Definition created_task (task : json) : result str :=
  (d <- py_get task (lit "due") ;;
   due_info <- (if truthy d then
                  d' <- py_get task (lit "due") ;;
                  due <- _format_due d' ;;
                  ok (lit " due " ++ py_str due)
                else ok []) ;;
   confirm (lit "Created task") (lit "content") task due_info)%res.

Definition create_task_body (w : world) (params : CreateTaskInput.t)
  : Eff str :=
  (task <- _make_api_request w (lit "tasks") (lit "POST")
             (Some (create_task_data params)) None ;;
   lift (created_task task))%eff.

Definition todoist_create_task (w : world) (params : CreateTaskInput.t)
  : outcome := handled (create_task_body w params).

Definition is_not_None {A} (o : option A) : bool :=
  match o with
  | Some _ => true
  | None => false
  end.

Definition update_task_data (params : UpdateTaskInput.t) : dict :=
  let data := [] in
  let data := set_if (some_text (UpdateTaskInput.content params))
                (lit "content")
                (opt_str (UpdateTaskInput.content params)) data in
  let data := set_if (is_not_None (UpdateTaskInput.description params))
                (lit "description")
                (opt_str (UpdateTaskInput.description params)) data in
  let data := set_due (UpdateTaskInput.due_string params)
                (UpdateTaskInput.due_date params) data in
  let data := set_if (some_priority (UpdateTaskInput.priority params))
                (lit "priority")
                (opt_priority (UpdateTaskInput.priority params)) data in
  set_if (is_not_None (UpdateTaskInput.labels params)) (lit "labels")
    (opt_list (UpdateTaskInput.labels params)) data.

Definition NOTHING_TO_UPDATE : str :=
  lit "Error: No fields to update. Provide at least one field to change.".

Definition update_task_body (w : world) (params : UpdateTaskInput.t)
  : Eff str :=
  let data := update_task_data params in
  match data with
  | [] => eret NOTHING_TO_UPDATE
  | _ :: _ =>
      (task <- _make_api_request w
                 (lit "tasks/" ++ UpdateTaskInput.task_id params)
                 (lit "POST") (Some data) None ;;
       lift (confirm (lit "Updated task") (lit "content") task []))%eff
  end.

Definition todoist_update_task (w : world) (params : UpdateTaskInput.t)
  : outcome := handled (update_task_body w params).

(** The three tools that only report the id they were given. *)
Definition id_report (prefix id : str) : str :=
  prefix ++ lit " task (ID: `" ++ id ++ lit "`)".

Definition complete_task_body (w : world) (params : CompleteTaskInput.t)
  : Eff str :=
  (_ <- _make_api_request w
          (lit "tasks/" ++ CompleteTaskInput.task_id params ++ lit "/close")
          (lit "POST") None None ;;
   eret (id_report (CHECK_MARK ++ lit " Completed")
           (CompleteTaskInput.task_id params)))%eff.

Definition todoist_complete_task (w : world) (params : CompleteTaskInput.t)
  : outcome := handled (complete_task_body w params).

Definition reopen_task_body (w : world) (params : ReopenTaskInput.t)
  : Eff str :=
  (_ <- _make_api_request w
          (lit "tasks/" ++ ReopenTaskInput.task_id params ++ lit "/reopen")
          (lit "POST") None None ;;
   eret (id_report (CHECK_MARK ++ lit " Reopened")
           (ReopenTaskInput.task_id params)))%eff.

Definition todoist_reopen_task (w : world) (params : ReopenTaskInput.t)
  : outcome := handled (reopen_task_body w params).

Definition delete_task_body (w : world) (params : DeleteTaskInput.t)
  : Eff str :=
  (_ <- _make_api_request w
          (lit "tasks/" ++ DeleteTaskInput.task_id params)
          (lit "DELETE") None None ;;
   eret (id_report (WASTEBASKET ++ lit " Deleted")
           (DeleteTaskInput.task_id params)))%eff.

Definition todoist_delete_task (w : world) (params : DeleteTaskInput.t)
  : outcome := handled (delete_task_body w params).

(** *** Labels *)

Definition label_line (label : json) : result (list str) :=
  (fav <- py_get label (lit "is_favorite") ;;
   let favorite := if truthy fav then lit " " ++ STAR else [] in
   name <- py_subscript label (lit "name") ;;
   id <- py_subscript label (lit "id") ;;
   color <- py_get_default label (lit "color") (JStr (lit "default")) ;;
   ok [lit "- **" ++ py_str name ++ lit "**" ++ favorite ++ lit " (ID: `"
         ++ py_str id ++ lit "`, color: " ++ py_str color ++ lit ")"])%res.

Definition render_labels (labels : json) : result str :=
  (items <- py_iter labels ;;
   lines <- for_each label_line items ;;
   ok (join NL ([lit "# Todoist Labels"; []] ++ lines)))%res.

Definition list_labels_body (w : world) (params : ListLabelsInput.t)
  : Eff str :=
  (labels <- _make_api_request w (lit "labels") (lit "GET") None None ;;
   if negb (truthy labels) then
     eret (lit "No labels found. Create labels to organize your tasks.")
   else
     match ListLabelsInput.response_format params with
     | JSON => eret (json_dumps labels)
     | MARKDOWN => lift (render_labels labels)
     end)%eff.

Definition todoist_list_labels (w : world) (params : ListLabelsInput.t)
  : outcome := handled (list_labels_body w params).

Definition create_label_data (params : CreateLabelInput.t) : dict :=
  let data := [(lit "name", JStr (CreateLabelInput.name params))] in
  let data := set_if (some_text (CreateLabelInput.color params))
                (lit "color")
                (opt_str (CreateLabelInput.color params)) data in
  set_if (CreateLabelInput.is_favorite params) (lit "is_favorite")
    (JBool (CreateLabelInput.is_favorite params)) data.

Definition create_label_body (w : world) (params : CreateLabelInput.t)
  : Eff str :=
  (label <- _make_api_request w (lit "labels") (lit "POST")
              (Some (create_label_data params)) None ;;
   lift (confirm (lit "Created label") (lit "name") label []))%eff.

Definition todoist_create_label (w : world) (params : CreateLabelInput.t)
  : outcome := handled (create_label_body w params).

(** *** The tool surface: one case per registered tool *)

Inductive tool_call : Type :=
| ListProjects (p : ListProjectsInput.t)
| GetProject (p : GetProjectInput.t)
| CreateProject (p : CreateProjectInput.t)
| ListTasks (p : ListTasksInput.t)
| GetTask (p : GetTaskInput.t)
| CreateTask (p : CreateTaskInput.t)
| UpdateTask (p : UpdateTaskInput.t)
| CompleteTask (p : CompleteTaskInput.t)
| ReopenTask (p : ReopenTaskInput.t)
| DeleteTask (p : DeleteTaskInput.t)
| ListLabels (p : ListLabelsInput.t)
| CreateLabel (p : CreateLabelInput.t).

(** The body of the tool's [try] block. *)
Definition tool_body (w : world) (c : tool_call) : Eff str :=
  match c with
  | ListProjects p => list_projects_body w p
  | GetProject p => get_project_body w p
  | CreateProject p => create_project_body w p
  | ListTasks p => list_tasks_body w p
  | GetTask p => get_task_body w p
  | CreateTask p => create_task_body w p
  | UpdateTask p => update_task_body w p
  | CompleteTask p => complete_task_body w p
  | ReopenTask p => reopen_task_body w p
  | DeleteTask p => delete_task_body w p
  | ListLabels p => list_labels_body w p
  | CreateLabel p => create_label_body w p
  end.

Definition call_tool (w : world) (c : tool_call) : outcome :=
  match c with
  | ListProjects p => todoist_list_projects w p
  | GetProject p => todoist_get_project w p
  | CreateProject p => todoist_create_project w p
  | ListTasks p => todoist_list_tasks w p
  | GetTask p => todoist_get_task w p
  | CreateTask p => todoist_create_task w p
  | UpdateTask p => todoist_update_task w p
  | CompleteTask p => todoist_complete_task w p
  | ReopenTask p => todoist_reopen_task w p
  | DeleteTask p => todoist_delete_task w p
  | ListLabels p => todoist_list_labels w p
  | CreateLabel p => todoist_create_label w p
  end.

End Tools.

(** ** Notions used in the statements *)

(** *** The error table of the specification

    [error_row e m]: the failure [e] falls in a row of the table whose
    message is [m].  The rows are read from the specification, one
    constructor each; the row of server errors is the one the handler
    implements, every status from 500 upwards. *)

Definition listed_status (status : Z) : bool :=
  ((status =? 400) || (status =? 401) || (status =? 403)
   || (status =? 404) || (status =? 429))%Z.

Inductive error_row : exn -> str -> Prop :=
| row_400 :
    error_row (HTTPStatusError 400)
      (lit "Error: Invalid request. Check your parameters are correct.")
| row_401 :
    error_row (HTTPStatusError 401)
      (lit "Error: Invalid API token. Check TODOIST_API_TOKEN is correct.")
| row_403 :
    error_row (HTTPStatusError 403)
      (lit "Error: Permission denied. You may not have access to this resource.")
| row_404 :
    error_row (HTTPStatusError 404)
      (lit "Error: Resource not found. Check the ID is correct.")
| row_429 :
    error_row (HTTPStatusError 429)
      (lit "Error: Rate limit exceeded. Please wait before making more requests.")
| row_server (status : Z) :
    (500 <= status)%Z ->
    error_row (HTTPStatusError status)
      (lit "Error: Todoist server error. Please try again later.")
| row_status (status : Z) :
    (status < 500)%Z -> listed_status status = false ->
    error_row (HTTPStatusError status)
      (lit "Error: API request failed with status " ++ str_of_Z status)
| row_timeout :
    error_row TimeoutException
      (lit "Error: Request timed out. Please try again.")
| row_value (msg : str) :
    error_row (ValueError msg) (lit "Error: " ++ msg)
| row_other (type_name msg : str) :
    error_row (OtherException type_name msg)
      (lit "Error: " ++ type_name ++ lit ": " ++ msg).

(** The 5xx class of status codes. *)
Definition is_5xx (status : Z) : bool :=
  ((500 <=? status) && (status <=? 599))%Z.

(** What a tool returns when its body ends with [r]. *)
Definition returned (r : result str) : str :=
  match r with
  | inl e => _handle_api_error e
  | inr s => s
  end.

(** Whether the handler of a call gets as far as
    [_make_api_request]: every tool calls it first, except the update
    tool, which returns before it when the request body is empty. *)
Definition reaches_request (c : tool_call) : bool :=
  match c with
  | UpdateTask p =>
      match update_task_data p with
      | [] => false
      | _ :: _ => true
      end
  | _ => true
  end.

(** *** The fields an update supplies

    The optional fields of [UpdateTaskInput] that are not [None], under
    the names they have in the request body. *)

Definition supplied (k : str) (v : json) : list (str * json) :=
  match v with
  | JNull => []
  | _ => [(k, v)]
  end.

Definition supplied_fields (p : UpdateTaskInput.t) : dict :=
  supplied (lit "content") (opt_str (UpdateTaskInput.content p))
  ++ supplied (lit "description") (opt_str (UpdateTaskInput.description p))
  ++ supplied (lit "due_string") (opt_str (UpdateTaskInput.due_string p))
  ++ supplied (lit "due_date") (opt_str (UpdateTaskInput.due_date p))
  ++ supplied (lit "priority") (opt_priority (UpdateTaskInput.priority p))
  ++ supplied (lit "labels") (opt_list (UpdateTaskInput.labels p)).

(** The update names no field but, possibly, [content]. *)
Definition only_content (p : UpdateTaskInput.t) : bool :=
  negb (is_not_None (UpdateTaskInput.description p))
  && negb (is_not_None (UpdateTaskInput.due_string p))
  && negb (is_not_None (UpdateTaskInput.due_date p))
  && negb (is_not_None (UpdateTaskInput.priority p))
  && negb (is_not_None (UpdateTaskInput.labels p)).

(** The update names no field but, possibly, [description]. *)
Definition only_description (p : UpdateTaskInput.t) : bool :=
  negb (is_not_None (UpdateTaskInput.content p))
  && negb (is_not_None (UpdateTaskInput.due_string p))
  && negb (is_not_None (UpdateTaskInput.due_date p))
  && negb (is_not_None (UpdateTaskInput.priority p))
  && negb (is_not_None (UpdateTaskInput.labels p)).

(** The value [d.get(k, default)] reads in a dict. *)
Definition get_or (d : dict) (k : str) (default : json) : json :=
  match lookup k d with
  | Some v => v
  | None => default
  end.

(** The display mapping of the specification: remote priority to
    label. *)
Definition display_of (n : Z) : option str :=
  if (n =? 1)%Z then Some (lit "P4 (lowest)")
  else if (n =? 2)%Z then Some (lit "P3")
  else if (n =? 3)%Z then Some (lit "P2")
  else if (n =? 4)%Z then Some (lit "P1 (highest)")
  else None.

(** ** Sample values

    Concrete inputs on which the model is evaluated.  None of them
    reaches [py_repr], [py_fault] or [json_dumps]. *)

Definition is_digit (c : char) : bool := (N.leb 48 c && N.leb c 57)%bool.

Definition sample_runtime : Runtime :=
  {| py_repr := fun _ => lit "<repr>";
     py_fault := fun _ _ => OtherException (lit "TypeError") [];
     json_dumps := fun _ => lit "<json>";
     is_space := fun c => (N.eqb c 32 || N.eqb c 9 || N.eqb c 10
                           || N.eqb c 13)%bool;
     strptime_ymd := fun s =>
       match s with
       | [y1; y2; y3; y4; h1; m1; m2; h2; d1; d2] =>
           forallb is_digit [y1; y2; y3; y4; m1; m2; d1; d2]
           && N.eqb h1 45 && N.eqb h2 45
       | _ => false
       end |}.

(** A world whose environment holds [token] and whose server always
    gives the same [answer]. *)
Definition world_of (token : option str) (answer : reply) : world :=
  {| environ := fun k => if str_eqb k TOKEN_VAR then token else None;
     send := fun _ => answer |}.

Definition sample_token : option str := Some (lit "0123456789abcdef").

Definition sample_label : json :=
  JObj [(lit "id", JStr (lit "2156154810"));
        (lit "name", JStr (lit "waiting-for"));
        (lit "color", JStr (lit "charcoal"));
        (lit "is_favorite", JBool false)].

Definition many_labels : json := JArr (repeat sample_label 500).

Definition labels_world : world :=
  world_of sample_token (Answer 200 (inr many_labels)).

(** A world without credential, and one with it, whose server answers
    every request with an empty JSON object. *)
Definition no_token_world : world :=
  world_of None (Answer 200 (inr (JObj []))).

Definition empty_token_world : world :=
  world_of (Some []) (Answer 200 (inr (JObj []))).

Definition update_nothing : UpdateTaskInput.t :=
  {| UpdateTaskInput.task_id := lit "2995104339";
     UpdateTaskInput.content := None;
     UpdateTaskInput.description := None;
     UpdateTaskInput.due_string := None;
     UpdateTaskInput.due_date := None;
     UpdateTaskInput.priority := None;
     UpdateTaskInput.labels := None |}.

Definition update_priority : UpdateTaskInput.t :=
  {| UpdateTaskInput.task_id := lit "2995104339";
     UpdateTaskInput.content := None;
     UpdateTaskInput.description := None;
     UpdateTaskInput.due_string := None;
     UpdateTaskInput.due_date := None;
     UpdateTaskInput.priority := Some P4;
     UpdateTaskInput.labels := None |}.

Definition ready_world : world :=
  world_of sample_token (Answer 200 (inr (JObj []))).

Definition update_content : UpdateTaskInput.t :=
  {| UpdateTaskInput.task_id := lit "2995104339";
     UpdateTaskInput.content := Some (lit "Buy milk");
     UpdateTaskInput.description := None;
     UpdateTaskInput.due_string := None;
     UpdateTaskInput.due_date := None;
     UpdateTaskInput.priority := None;
     UpdateTaskInput.labels := None |}.



Definition create_both_dues : CreateTaskInput.t :=
  {| CreateTaskInput.content := lit "Buy milk";
     CreateTaskInput.description := None;
     CreateTaskInput.project_id := None;
     CreateTaskInput.due_string := Some (lit "tomorrow");
     CreateTaskInput.due_date := Some (lit "2024-01-15");
     CreateTaskInput.priority := None;
     CreateTaskInput.labels := None;
     CreateTaskInput.parent_id := None |}.


Definition update_blank_content_raw : UpdateTaskInput.raw :=
  {| UpdateTaskInput.raw_task_id := lit "2995104339";
     UpdateTaskInput.raw_content := Some (lit "   ");
     UpdateTaskInput.raw_description := None;
     UpdateTaskInput.raw_due_string := None;
     UpdateTaskInput.raw_due_date := None;
     UpdateTaskInput.raw_priority := None;
     UpdateTaskInput.raw_labels := None |}.

Definition update_blank_content : UpdateTaskInput.t :=
  {| UpdateTaskInput.task_id := lit "2995104339";
     UpdateTaskInput.content := Some [];
     UpdateTaskInput.description := None;
     UpdateTaskInput.due_string := None;
     UpdateTaskInput.due_date := None;
     UpdateTaskInput.priority := None;
     UpdateTaskInput.labels := None |}.

Definition update_empty_description : UpdateTaskInput.t :=
  {| UpdateTaskInput.task_id := lit "2995104339";
     UpdateTaskInput.content := None;
     UpdateTaskInput.description := Some [];
     UpdateTaskInput.due_string := None;
     UpdateTaskInput.due_date := None;
     UpdateTaskInput.priority := None;
     UpdateTaskInput.labels := None |}.

(** A due object whose [string] is present and empty. *)
Definition due_with_empty_string : dict :=
  [(lit "date", JStr (lit "2024-01-15"));
   (lit "string", JStr []);
   (lit "is_recurring", JBool false)].

Definition due_with_datetime : dict :=
  [(lit "date", JStr (lit "2024-01-15"));
   (lit "datetime", JStr (lit "2024-01-15T09:00:00"));
   (lit "string", JStr (lit "Jan 15 9am"))].

Definition due_with_string : dict :=
  [(lit "date", JStr (lit "2024-01-15"));
   (lit "datetime", JNull);
   (lit "string", JStr (lit "Jan 15"))].

Definition due_with_date : dict :=
  [(lit "date", JStr (lit "2024-01-15"))].

Definition long_text : str := repeat 120%N 201.

Definition short_text : str := repeat 120%N 200.

Definition sample_task (priority : Z) (description : str) : dict :=
  [(lit "id", JStr (lit "2995104339"));
   (lit "content", JStr (lit "Buy milk"));
   (lit "description", JStr description);
   (lit "priority", JNum priority);
   (lit "labels", JArr [JStr (lit "food"); JStr (lit "shopping")]);
   (lit "due", JObj due_with_date);
   (lit "project_id", JStr (lit "2203306141"));
   (lit "created_at", JStr (lit "2024-01-10T08:00:00Z"))].

Definition three_tasks : list json :=
  [JObj (sample_task 1 (lit "a")); JObj (sample_task 2 (lit "b"));
   JObj (sample_task 3 (lit "c"))].

Definition tasks_world : world :=
  world_of sample_token (Answer 200 (inr (JArr three_tasks))).

Definition list_two_raw : ListTasksInput.raw :=
  {| ListTasksInput.raw_project_id := None;
     ListTasksInput.raw_label := None;
     ListTasksInput.raw_filter := None;
     ListTasksInput.raw_limit := Some 2%Z;
     ListTasksInput.raw_response_format := None |}.

Definition list_default_raw : ListTasksInput.raw :=
  {| ListTasksInput.raw_project_id := None;
     ListTasksInput.raw_label := None;
     ListTasksInput.raw_filter := None;
     ListTasksInput.raw_limit := None;
     ListTasksInput.raw_response_format := Some JSON |}.

Definition list_two : ListTasksInput.t :=
  {| ListTasksInput.project_id := None;
     ListTasksInput.label := None;
     ListTasksInput.filter := None;
     ListTasksInput.limit := 2;
     ListTasksInput.response_format := MARKDOWN |}.

Definition list_default : ListTasksInput.t :=
  {| ListTasksInput.project_id := None;
     ListTasksInput.label := None;
     ListTasksInput.filter := None;
     ListTasksInput.limit := 50;
     ListTasksInput.response_format := JSON |}.

Definition not_found_world : world :=
  world_of sample_token (Answer 404 (inr (JObj []))).

Definition get_missing_task : GetTaskInput.t :=
  {| GetTaskInput.task_id := lit "999999999";
     GetTaskInput.response_format := MARKDOWN |}.

(** ** The round trip of a tool, in one piece

    The request [_make_api_request] builds, what it makes of the reply,
    and, per tool, the arguments it is called with and what the handler
    does with the decoded answer.  The lemmas [make_request_run] and
    [tool_body_run] show that the handlers are exactly these pieces put
    together. *)

Definition the_request (token endpoint method : str)
    (json_data params : option dict) : request :=
  {| req_method := method;
     req_url := API_BASE_URL ++ lit "/" ++ endpoint;
     req_headers := [(lit "Authorization", lit "Bearer " ++ token);
                     (lit "Content-Type", lit "application/json")];
     req_json := json_data;
     req_params := params;
     req_timeout := 30 |}.

(** [raise_for_status], the 204 test and [response.json()]. *)
Definition reply_result (r : reply) : result json :=
  match r with
  | Failure e => inl e
  | Answer status decoded =>
      if negb (is_success status) then inl (HTTPStatusError status)
      else if (status =? 204)%Z then inr JNull
      else decoded
  end.

(** Endpoint, method, JSON body and query parameters of the call a
    handler makes; [None] when it returns without a call. *)
Definition tool_request (c : tool_call)
  : option (str * str * option dict * option dict) :=
  match c with
  | ListProjects _ => Some (lit "projects", lit "GET", None, None)
  | GetProject p =>
      Some (lit "projects/" ++ GetProjectInput.project_id p, lit "GET",
            None, None)
  | CreateProject p =>
      Some (lit "projects", lit "POST", Some (create_project_data p), None)
  | ListTasks p =>
      Some (lit "tasks", lit "GET", None, Some (list_tasks_query p))
  | GetTask p =>
      Some (lit "tasks/" ++ GetTaskInput.task_id p, lit "GET", None, None)
  | CreateTask p =>
      Some (lit "tasks", lit "POST", Some (create_task_data p), None)
  | UpdateTask p =>
      match update_task_data p with
      | [] => None
      | _ :: _ =>
          Some (lit "tasks/" ++ UpdateTaskInput.task_id p, lit "POST",
                Some (update_task_data p), None)
      end
  | CompleteTask p =>
      Some (lit "tasks/" ++ CompleteTaskInput.task_id p ++ lit "/close",
            lit "POST", None, None)
  | ReopenTask p =>
      Some (lit "tasks/" ++ ReopenTaskInput.task_id p ++ lit "/reopen",
            lit "POST", None, None)
  | DeleteTask p =>
      Some (lit "tasks/" ++ DeleteTaskInput.task_id p, lit "DELETE",
            None, None)
  | ListLabels _ => Some (lit "labels", lit "GET", None, None)
  | CreateLabel p =>
      Some (lit "labels", lit "POST", Some (create_label_data p), None)
  end.

(** What the handler makes of the decoded answer. *)
Definition tool_render {RT : Runtime} (c : tool_call) (answer : json)
  : result str :=
  match c with
  | ListProjects p =>
      if negb (truthy answer) then ok (lit "No projects found.")
      else
        match ListProjectsInput.response_format p with
        | JSON => ok (json_dumps answer)
        | MARKDOWN => render_projects answer
        end
  | GetProject p =>
      match GetProjectInput.response_format p with
      | JSON => ok (json_dumps answer)
      | MARKDOWN => render_project answer
      end
  | CreateProject _ => confirm (lit "Created project") (lit "name") answer []
  | ListTasks p => list_tasks_view p answer
  | GetTask p =>
      match GetTaskInput.response_format p with
      | JSON => ok (json_dumps answer)
      | MARKDOWN => render_task answer
      end
  | CreateTask _ => created_task answer
  | UpdateTask _ => confirm (lit "Updated task") (lit "content") answer []
  | CompleteTask p =>
      ok (id_report (CHECK_MARK ++ lit " Completed")
            (CompleteTaskInput.task_id p))
  | ReopenTask p =>
      ok (id_report (CHECK_MARK ++ lit " Reopened")
            (ReopenTaskInput.task_id p))
  | DeleteTask p =>
      ok (id_report (WASTEBASKET ++ lit " Deleted")
            (DeleteTaskInput.task_id p))
  | ListLabels p =>
      if negb (truthy answer) then
        ok (lit "No labels found. Create labels to organize your tasks.")
      else
        match ListLabelsInput.response_format p with
        | JSON => ok (json_dumps answer)
        | MARKDOWN => render_labels answer
        end
  | CreateLabel _ => confirm (lit "Created label") (lit "name") answer []
  end.

(** The hints the tools are registered with ([annotations] of
    [@mcp.tool]). *)
Definition readOnlyHint (c : tool_call) : bool :=
  match c with
  | ListProjects _ | GetProject _ | ListTasks _ | GetTask _
  | ListLabels _ => true
  | _ => false
  end.

Definition destructiveHint (c : tool_call) : bool :=
  match c with
  | DeleteTask _ => true
  | _ => false
  end.

(** More sample worlds: a server that answers 204 with an empty body
    (which [response.json()] would reject), one that times out, one
    that answers 200 with a body that is not JSON. *)
Definition EXPECTING_VALUE : exn :=
  ValueError (lit "Expecting value: line 1 column 1 (char 0)").

Definition no_content_world : world :=
  world_of sample_token (Answer 204 (inl EXPECTING_VALUE)).

Definition timeout_world : world :=
  world_of sample_token (Failure TimeoutException).

Definition not_json_world : world :=
  world_of sample_token (Answer 200 (inl EXPECTING_VALUE)).

Definition sample_request (endpoint method : str) : request :=
  the_request (lit "0123456789abcdef") endpoint method None None.

Definition close_42 : CompleteTaskInput.t :=
  {| CompleteTaskInput.task_id := lit "42" |}.

Definition reopen_42 : ReopenTaskInput.t :=
  {| ReopenTaskInput.task_id := lit "42" |}.

Definition delete_42 : DeleteTaskInput.t :=
  {| DeleteTaskInput.task_id := lit "42" |}.

Definition list_projects_json : ListProjectsInput.t :=
  {| ListProjectsInput.response_format := JSON |}.

Definition list_projects_markdown : ListProjectsInput.t :=
  {| ListProjectsInput.response_format := MARKDOWN |}.

Definition list_labels_json : ListLabelsInput.t :=
  {| ListLabelsInput.response_format := JSON |}.

Definition sample_project : json :=
  JObj [(lit "id", JStr (lit "2203306141"));
        (lit "name", JStr (lit "Shopping List"));
        (lit "comment_count", JNum 7);
        (lit "is_favorite", JBool false)].

Definition projects_world : world :=
  world_of sample_token (Answer 200 (inr (JArr [sample_project]))).

Definition many_projects_world : world :=
  world_of sample_token (Answer 200 (inr (JArr (repeat sample_project 1000)))).

Definition empty_list_world : world :=
  world_of sample_token (Answer 200 (inr (JArr []))).


(** The same raw update with another [due_date]. *)
Definition with_raw_due_date (r : UpdateTaskInput.raw) (d : option str)
  : UpdateTaskInput.raw :=
  {| UpdateTaskInput.raw_task_id := UpdateTaskInput.raw_task_id r;
     UpdateTaskInput.raw_content := UpdateTaskInput.raw_content r;
     UpdateTaskInput.raw_description := UpdateTaskInput.raw_description r;
     UpdateTaskInput.raw_due_string := UpdateTaskInput.raw_due_string r;
     UpdateTaskInput.raw_due_date := d;
     UpdateTaskInput.raw_priority := UpdateTaskInput.raw_priority r;
     UpdateTaskInput.raw_labels := UpdateTaskInput.raw_labels r |}.

Definition create_raw (content : str) (due_date : option str)
    (priority : option Z) : CreateTaskInput.raw :=
  {| CreateTaskInput.raw_content := content;
     CreateTaskInput.raw_description := None;
     CreateTaskInput.raw_project_id := None;
     CreateTaskInput.raw_due_string := None;
     CreateTaskInput.raw_due_date := due_date;
     CreateTaskInput.raw_priority := priority;
     CreateTaskInput.raw_labels := None;
     CreateTaskInput.raw_parent_id := None |}.

Definition update_raw (task_id : str) (due_date : option str)
    (priority : option Z) : UpdateTaskInput.raw :=
  {| UpdateTaskInput.raw_task_id := task_id;
     UpdateTaskInput.raw_content := None;
     UpdateTaskInput.raw_description := None;
     UpdateTaskInput.raw_due_string := None;
     UpdateTaskInput.raw_due_date := due_date;
     UpdateTaskInput.raw_priority := priority;
     UpdateTaskInput.raw_labels := None |}.

Definition create_empty_extras : CreateTaskInput.t :=
  {| CreateTaskInput.content := lit "Buy milk";
     CreateTaskInput.description := Some [];
     CreateTaskInput.project_id := None;
     CreateTaskInput.due_string := None;
     CreateTaskInput.due_date := None;
     CreateTaskInput.priority := Some P3;
     CreateTaskInput.labels := Some [];
     CreateTaskInput.parent_id := None |}.

Definition update_empty_extras : UpdateTaskInput.t :=
  {| UpdateTaskInput.task_id := lit "2995104339";
     UpdateTaskInput.content := None;
     UpdateTaskInput.description := Some [];
     UpdateTaskInput.due_string := None;
     UpdateTaskInput.due_date := None;
     UpdateTaskInput.priority := None;
     UpdateTaskInput.labels := Some [] |}.

Definition plain_project : CreateProjectInput.t :=
  {| CreateProjectInput.name := lit "Home";
     CreateProjectInput.parent_id := None;
     CreateProjectInput.color := Some [];
     CreateProjectInput.is_favorite := false |}.

Definition favorite_label : CreateLabelInput.t :=
  {| CreateLabelInput.name := lit "urgent";
     CreateLabelInput.color := Some (lit "red");
     CreateLabelInput.is_favorite := true |}.

Definition idless_project : json :=
  JObj [(lit "name", JStr (lit "Errands"))].

Definition broken_projects_world : world :=
  world_of sample_token
    (Answer 200 (inr (JArr [sample_project; idless_project]))).

Definition minimal_task : dict :=
  [(lit "id", JStr (lit "2995104339")); (lit "content", JStr (lit "Buy milk"))].

Definition minimal_project : dict :=
  [(lit "id", JStr (lit "2203306141")); (lit "name", JStr (lit "Home"))].

Definition get_project_markdown : GetProjectInput.t :=
  {| GetProjectInput.project_id := lit "2203306141";
     GetProjectInput.response_format := MARKDOWN |}.

Definition idless_task_world : world :=
  world_of sample_token
    (Answer 200 (inr (JObj [(lit "content", JStr (lit "Buy milk"))]))).

(** None of [keys] is a key of [d]. *)
Definition absent (d : dict) (keys : list str) : bool :=
  forallb (fun k => match lookup k d with
                    | None => true
                    | Some _ => false
                    end) keys.

Definition get_task_markdown : GetTaskInput.t :=
  {| GetTaskInput.task_id := lit "2995104339";
     GetTaskInput.response_format := MARKDOWN |}.

Definition nameless_world : world :=
  world_of sample_token
    (Answer 200 (inr (JObj [(lit "id", JStr (lit "2203306142"))]))).








Definition many_projects : list json := repeat sample_project 1000.

Definition many_projects_listing : str :=
  match @render_projects sample_runtime (JArr many_projects)
        return str with
  | inr out => out
  | inl _ => []
  end.





(** * Properties *)

(** ** Strings *)

Lemma str_eqb_eq (a b : str) : str_eqb a b = true <-> a = b.
Proof.
  revert b; induction a as [|c a IH]; intros [|d b]; simpl; split;
    try congruence; try discriminate.
  - intros H. apply andb_true_iff in H as [Hc Hab].
    apply N.eqb_eq in Hc. apply IH in Hab. congruence.
  - intros H. injection H as -> ->.
    apply andb_true_iff. split; [apply N.eqb_refl | now apply IH].
Qed.

Lemma len_app (a b : str) : len (a ++ b) = (len a + len b)%Z.
Proof. unfold len. rewrite length_app. lia. Qed.

Lemma len_nonneg (a : str) : (0 <= len a)%Z.
Proof. unfold len. lia. Qed.

Lemma slice_to_firstn {A} (l : list A) (n : Z) :
  (0 <= n)%Z -> slice_to l n = firstn (Z.to_nat n) l.
Proof.
  intros H. unfold slice_to.
  destruct (Z.leb_spec 0 n); [reflexivity | lia].
Qed.

Lemma len_slice_to (s : str) (n : Z) :
  (0 <= n <= len s)%Z -> len (slice_to s n) = n.
Proof.
  intros H. rewrite slice_to_firstn by lia.
  unfold len in *. rewrite length_firstn. lia.
Qed.

Lemma startswith_app (p s : str) : startswith p (p ++ s) = true.
Proof.
  induction p as [|c p IH]; simpl; [reflexivity|].
  now rewrite N.eqb_refl, IH.
Qed.

Lemma endswith_app (p s : str) : endswith p (s ++ p) = true.
Proof. unfold endswith. rewrite rev_app_distr. apply startswith_app. Qed.

(** ** The size cap of [_truncate_response] *)

Lemma truncate_short (r : str) (n : Z) :
  (len r <= CHARACTER_LIMIT)%Z -> _truncate_response r n = r.
Proof.
  intros H. unfold _truncate_response.
  destruct (Z.gtb_spec (len r) CHARACTER_LIMIT); [lia | reflexivity].
Qed.

Lemma truncate_long (r : str) (n : Z) :
  (CHARACTER_LIMIT < len r)%Z ->
  _truncate_response r n = slice_to r 24800 ++ CHARACTER_NOTICE n.
Proof.
  intros H. unfold _truncate_response.
  destruct (Z.gtb_spec (len r) CHARACTER_LIMIT); [reflexivity | lia].
Qed.

Lemma notice_len (n : Z) :
  len (CHARACTER_NOTICE n) = (69 + len (str_of_Z n))%Z.
Proof.
  unfold CHARACTER_NOTICE. rewrite !len_app.
  change (len NL) with 1%Z.
  change (len (lit "---")) with 3%Z.
  change (len (lit "**Response truncated** (")) with 24%Z.
  change (len (lit " items). Use filters to narrow results.")) with 39%Z.
  lia.
Qed.

(** A response that is cut keeps 24,800 characters and ends with the
    notice; it fits the limit as long as the count has at most 131
    digits. *)
Lemma truncate_cut (r : str) (n : Z) :
  (CHARACTER_LIMIT < len r)%Z ->
  len (_truncate_response r n) = (24869 + len (str_of_Z n))%Z
  /\ endswith (CHARACTER_NOTICE n) (_truncate_response r n) = true.
Proof.
  intros H. rewrite truncate_long by assumption. split.
  - rewrite len_app, notice_len, len_slice_to; [lia|].
    unfold CHARACTER_LIMIT in H. lia.
  - apply endswith_app.
Qed.

Lemma truncate_bound (r : str) (n : Z) :
  (len (str_of_Z n) <= 131)%Z ->
  (len (_truncate_response r n) <= CHARACTER_LIMIT)%Z.
Proof.
  intros Hd. destruct (Z.le_gt_cases (len r) CHARACTER_LIMIT) as [H|H].
  - now rewrite truncate_short.
  - destruct (@truncate_cut r n H) as [-> _]. unfold CHARACTER_LIMIT. lia.
Qed.

Lemma digits_upto_200 (n : Z) :
  (0 <= n <= 200)%Z -> (len (str_of_Z n) <= 3)%Z.
Proof.
  intros H.
  assert (Hall : forallb (fun k => (len (str_of_nat k) <=? 3)%Z)
                   (seq 0 201) = true) by (vm_compute; reflexivity).
  rewrite forallb_forall in Hall.
  specialize (Hall (Z.to_nat n)).
  unfold str_of_nat in Hall. rewrite Z2Nat.id in Hall by lia.
  apply Z.leb_le, Hall, in_seq. lia.
Qed.

(** The list views of projects and of tasks go through
    [_truncate_response]; the list view of labels is returned as it was
    joined. *)
Lemma render_projects_capped {RT : Runtime} (l : list json) (out : str) :
  render_projects (JArr l) = ok out ->
  exists full, out = _truncate_response full (Z.of_nat (length l)).
Proof.
  unfold render_projects, rbind, py_iter, py_len, ok.
  destruct (for_each project_lines l); [discriminate|].
  intros H. injection H as <-. eauto.
Qed.

Lemma render_tasks_capped {RT : Runtime} (l : list json) (out : str) :
  (Z.of_nat (length l) <= 200)%Z ->
  render_tasks (JArr l) = ok out ->
  (len out <= CHARACTER_LIMIT)%Z.
Proof.
  intros Hn. unfold render_tasks, rbind, py_iter, py_len, ok.
  destruct (for_each task_lines l); [discriminate|].
  intros H. injection H as <-.
  apply truncate_bound.
  pose proof (@digits_upto_200 (Z.of_nat (length l))). lia.
Qed.

(** C1 (list-labels): the markdown list of labels is not passed to
    [_truncate_response].  For a server answer of 500 labels the tool
    sends one request and returns all 27,017 characters of the joined
    lines, more than [CHARACTER_LIMIT]; [_truncate_response] would have
    cut them to 24,872 characters, and the result does not end with the
    truncation notice. *)
Theorem list_labels_not_truncated (RT : Runtime) :
  let out := fst (todoist_list_labels labels_world
                    {| ListLabelsInput.response_format := MARKDOWN |}) in
  render_labels many_labels = ok out
  /\ len out = 27017%Z
  /\ (CHARACTER_LIMIT < len out)%Z
  /\ len (_truncate_response out 500) = 24872%Z
  /\ endswith (CHARACTER_NOTICE 500) out = false
  /\ length (snd (todoist_list_labels labels_world
                    {| ListLabelsInput.response_format := MARKDOWN |})) = 1.
Proof.
  cbv zeta. repeat split; vm_compute; reflexivity.
Qed.

(** ** The error formatter *)

Lemma handle_api_error_prefix (e : exn) :
  startswith (lit "Error:") (_handle_api_error e) = true.
Proof.
  destruct e as [status| |msg|type_name msg]; simpl; try reflexivity.
  repeat match goal with
         | |- context [if ?b then _ else _] => destruct b
         end; reflexivity.
Qed.

Lemma handle_api_error_row (e : exn) : error_row e (_handle_api_error e).
Proof.
  destruct e as [status| |msg|type_name msg]; simpl; try constructor.
  destruct (Z.eqb_spec status 400) as [->|H400]; [constructor|].
  destruct (Z.eqb_spec status 401) as [->|H401]; [constructor|].
  destruct (Z.eqb_spec status 403) as [->|H403]; [constructor|].
  destruct (Z.eqb_spec status 404) as [->|H404]; [constructor|].
  destruct (Z.eqb_spec status 429) as [->|H429]; [constructor|].
  rewrite Z.geb_leb.
  destruct (Z.leb_spec 500 status) as [Hs|Hs].
  - now apply row_server.
  - apply row_status; [assumption|].
    unfold listed_status.
    repeat match goal with
           | H : status <> ?k |- _ => apply Z.eqb_neq in H; rewrite H; clear H
           end.
    reflexivity.
Qed.

Lemma error_row_functional (e : exn) (m1 m2 : str) :
  error_row e m1 -> error_row e m2 -> m1 = m2.
Proof.
  intros H1 H2.
  inversion H1; subst; inversion H2; subst;
    try reflexivity; try lia; try discriminate.
Qed.

Lemma call_tool_handled {RT : Runtime} (w : world) (c : tool_call) :
  call_tool w c = handled (tool_body w c).
Proof. destruct c; reflexivity. Qed.

(** C2 (counterexample): status 600 is not in the 5xx class and is none
    of the five listed codes, so the claim gives it the generic
    "status N" message; the handler answers with the server-error
    message. *)
Lemma status_600_is_server_error :
  is_5xx 600 = false
  /\ listed_status 600 = false
  /\ _handle_api_error (HTTPStatusError 600)
     = lit "Error: Todoist server error. Please try again later."
  /\ _handle_api_error (HTTPStatusError 600)
     <> lit "Error: API request failed with status " ++ str_of_Z 600.
Proof.
  repeat split; try reflexivity.
  vm_compute. discriminate.
Qed.

(** C2 (amended): whatever the body of a tool does, the tool returns a
    string.  Either the body returned it, or the body raised [e] and the
    string is [_handle_api_error e]: the message of the one row of the
    error table that [e] falls in (400, 401, 403, 404, 429, any status
    from 500 upwards, any other status, timeout, [ValueError] verbatim
    after the prefix, anything else with the name of its class), and it
    begins with "Error:". *)
Theorem tool_failure_message {RT : Runtime} (w : world) (c : tool_call) :
  (exists s log,
      tool_body w c [] = (inr s, log) /\ call_tool w c = (s, log))
  \/
  (exists e log,
      tool_body w c [] = (inl e, log)
      /\ call_tool w c = (_handle_api_error e, log)
      /\ error_row e (_handle_api_error e)
      /\ (forall m, error_row e m -> m = _handle_api_error e)
      /\ startswith (lit "Error:") (_handle_api_error e) = true).
Proof.
  rewrite call_tool_handled. unfold handled.
  destruct (tool_body w c []) as [[e|s] log].
  - right. exists e, log. repeat split.
    + apply handle_api_error_row.
    + intros m Hm.
      exact (error_row_functional Hm (handle_api_error_row e)).
    + apply handle_api_error_prefix.
  - left. exists s, log. split; reflexivity.
Qed.

Lemma tool_failure_message_witness :
  exists e log,
    @tool_body sample_runtime not_found_world (GetTask get_missing_task) []
    = (inl e, log)
    /\ @call_tool sample_runtime not_found_world (GetTask get_missing_task)
       = (_handle_api_error e, log)
    /\ error_row e (_handle_api_error e)
    /\ (forall m, error_row e m -> m = _handle_api_error e)
    /\ startswith (lit "Error:") (_handle_api_error e) = true.
Proof.
  destruct (@tool_failure_message sample_runtime not_found_world
              (GetTask get_missing_task)) as [(s & log & H & _)|H].
  - vm_compute in H. discriminate.
  - exact H.
Defined.

(** ** The credential *)

Lemma no_token_raises (w : world) :
  some_text (environ w TOKEN_VAR) = false ->
  _get_api_token w = throw (ValueError TOKEN_MESSAGE).
Proof. intros H. unfold _get_api_token. now rewrite H. Qed.

Lemma request_without_token (w : world) (endpoint method : str)
    (json_data params : option dict) (log : list request) :
  some_text (environ w TOKEN_VAR) = false ->
  _make_api_request w endpoint method json_data params log
  = (inl (ValueError TOKEN_MESSAGE), log).
Proof.
  intros H. unfold _make_api_request.
  now rewrite (no_token_raises w H).
Qed.

(** C5 (counterexample): without credential, an update that names no
    field returns the "no fields to update" message, which is not the
    configuration error. *)
Lemma update_nothing_without_token :
  _get_api_token no_token_world = throw (ValueError TOKEN_MESSAGE)
  /\ @call_tool sample_runtime no_token_world (UpdateTask update_nothing)
     = (NOTHING_TO_UPDATE, [])
  /\ NOTHING_TO_UPDATE <> _handle_api_error (ValueError TOKEN_MESSAGE).
Proof.
  repeat split. vm_compute. discriminate.
Qed.

(** C5 (amended): when the credential variable is absent or empty,
    every tool call that reaches the request executor (every call but
    an update with an empty request body) sends nothing and returns the
    string [_handle_api_error] makes of the [ValueError] raised by
    [_get_api_token]; the string names the variable and the place where
    the token is found. *)
Theorem missing_token_message {RT : Runtime} (w : world) (c : tool_call) :
  some_text (environ w TOKEN_VAR) = false ->
  reaches_request c = true ->
  tool_body w c [] = (inl (ValueError TOKEN_MESSAGE), [])
  /\ call_tool w c = (_handle_api_error (ValueError TOKEN_MESSAGE), [])
  /\ _handle_api_error (ValueError TOKEN_MESSAGE)
     = lit "Error: " ++ TOKEN_VAR
       ++ lit " environment variable not set. Get your token from: "
       ++ lit "Todoist Settings " ++ ARROW ++ lit " Integrations " ++ ARROW
       ++ lit " Developer " ++ ARROW ++ lit " API token".
Proof.
  intros Htok Hreach.
  assert (Hbody : tool_body w c [] = (inl (ValueError TOKEN_MESSAGE), [])).
  { destruct c; simpl in *;
      try (unfold list_projects_body, get_project_body, create_project_body,
             list_tasks_body, get_task_body, create_task_body,
             complete_task_body, reopen_task_body, delete_task_body,
             list_labels_body, create_label_body, ebind;
           now rewrite request_without_token).
    unfold update_task_body.
    destruct (update_task_data p); [discriminate|].
    unfold ebind. now rewrite request_without_token. }
  repeat split.
  - exact Hbody.
  - rewrite call_tool_handled. unfold handled. now rewrite Hbody.
Qed.

Lemma missing_token_message_witness :
  some_text (environ empty_token_world TOKEN_VAR) = false
  /\ reaches_request (UpdateTask update_priority) = true
  /\ @call_tool sample_runtime empty_token_world (UpdateTask update_priority)
     = (_handle_api_error (ValueError TOKEN_MESSAGE), []).
Proof.
  split; [reflexivity|]. split; [reflexivity|].
  apply (@missing_token_message sample_runtime empty_token_world
           (UpdateTask update_priority)); reflexivity.
Defined.

(** ** Request bodies *)

Lemma str_eqb_spec (a b : str) : reflect (a = b) (str_eqb a b).
Proof.
  destruct (str_eqb a b) eqn:E; constructor.
  - now apply str_eqb_eq.
  - intros H. apply str_eqb_eq in H. congruence.
Qed.

Lemma lookup_dict_set (q k : str) (v : json) (d : dict) :
  lookup q (dict_set k v d)
  = if str_eqb q k then Some v else lookup q d.
Proof.
  induction d as [|[k' v'] d IH]; simpl.
  - reflexivity.
  - destruct (str_eqb_spec k k') as [<-|Hk]; simpl.
    + now destruct (str_eqb q k).
    + rewrite IH.
      destruct (str_eqb_spec q k') as [->|Hq]; [|reflexivity].
      destruct (str_eqb_spec k' k); [congruence | reflexivity].
Qed.

Lemma lookup_set_if (q k : str) (cond : bool) (v : json) (d : dict) :
  lookup q (set_if cond k v d)
  = if cond && str_eqb q k then Some v else lookup q d.
Proof.
  unfold set_if. destruct cond; simpl; [apply lookup_dict_set | reflexivity].
Qed.

Lemma lookup_set_due (q : str) (a b : option str) (d : dict) :
  lookup q (set_due a b d)
  = if some_text a && str_eqb q (lit "due_string") then Some (opt_str a)
    else if negb (some_text a) && some_text b
            && str_eqb q (lit "due_date") then Some (opt_str b)
    else lookup q d.
Proof.
  unfold set_due.
  destruct (some_text a); simpl; [apply lookup_dict_set|].
  destruct (some_text b); simpl; [apply lookup_dict_set | reflexivity].
Qed.

Lemma in_dict_set (kv : str * json) (k : str) (v : json) (d : dict) :
  In kv (dict_set k v d) -> kv = (k, v) \/ In kv d.
Proof.
  induction d as [|[k' v'] d IH]; simpl.
  - intros [H|[]]. now left.
  - destruct (str_eqb k k'); simpl.
    + intros [H|H]; [now left | now right; right].
    + intros [H|H]; [now right; left|].
      destruct (IH H); [now left | now right; right].
Qed.

Lemma in_set_if (kv : str * json) (cond : bool) (k : str) (v : json)
    (d : dict) :
  In kv (set_if cond k v d) -> (cond = true /\ kv = (k, v)) \/ In kv d.
Proof.
  unfold set_if. destruct cond; [|now right].
  intros H. destruct (in_dict_set _ _ _ _ H); [now left | now right].
Qed.

Lemma in_set_due (kv : str * json) (a b : option str) (d : dict) :
  In kv (set_due a b d) ->
  (some_text a = true /\ kv = (lit "due_string", opt_str a))
  \/ (some_text a = false /\ some_text b = true
      /\ kv = (lit "due_date", opt_str b))
  \/ In kv d.
Proof.
  unfold set_due. destruct (some_text a).
  - intros H. destruct (in_dict_set _ _ _ _ H); [now left | now right; right].
  - destruct (some_text b); [|now right; right].
    intros H. destruct (in_dict_set _ _ _ _ H);
      [now right; left | now right; right].
Qed.

(** Comparison of two key literals. *)
Ltac eval_keys :=
  repeat match goal with
         | |- context [str_eqb (lit ?a) (lit ?b)] =>
             let r := eval vm_compute in (str_eqb (lit a) (lit b)) in
             change (str_eqb (lit a) (lit b)) with r
         end;
  rewrite ?andb_false_r, ?andb_true_r.

(** Lookup in a body built by [set_if] and [set_due]. *)
Ltac lookup_body :=
  repeat (rewrite lookup_set_if || rewrite lookup_set_due);
  simpl lookup; eval_keys; cbv iota.

Lemma some_text_value (o : option str) :
  some_text o = true -> opt_str o <> JNull.
Proof. destruct o as [[|c s]|]; simpl; congruence. Qed.

Lemma in_supplied (k : str) (v : json) :
  v <> JNull -> In (k, v) (supplied k v).
Proof. destruct v; simpl; intuition congruence. Qed.

(** Every entry of the update body is a supplied field with its value. *)
Lemma update_task_data_supplied (p : UpdateTaskInput.t) (kv : str * json) :
  In kv (update_task_data p) -> In kv (supplied_fields p).
Proof.
  unfold update_task_data, supplied_fields. intros H.
  apply in_set_if in H as [[Hc ->]|H].
  { repeat (apply in_or_app; right). apply in_supplied.
    destruct (UpdateTaskInput.labels p); simpl in *; congruence. }
  apply in_set_if in H as [[Hc ->]|H].
  { do 4 (apply in_or_app; right). apply in_or_app; left. apply in_supplied.
    destruct (UpdateTaskInput.priority p); simpl in *; congruence. }
  apply in_set_due in H as [[Hc ->]|[[Ha [Hb ->]]|H]].
  { do 2 (apply in_or_app; right). apply in_or_app; left.
    now apply in_supplied, some_text_value. }
  { do 3 (apply in_or_app; right). apply in_or_app; left.
    now apply in_supplied, some_text_value. }
  apply in_set_if in H as [[Hc ->]|H].
  { apply in_or_app; right. apply in_or_app; left. apply in_supplied.
    destruct (UpdateTaskInput.description p); simpl in *; congruence. }
  apply in_set_if in H as [[Hc ->]|[]].
  apply in_or_app; left. now apply in_supplied, some_text_value.
Qed.

(** ** Requests sent *)

Lemma request_sent (w : world) (endpoint method : str)
    (json_data params : option dict) (log : list request) :
  some_text (environ w TOKEN_VAR) = true ->
  exists req r,
    _make_api_request w endpoint method json_data params log
    = (r, log ++ [req])
    /\ req_method req = method
    /\ req_url req = API_BASE_URL ++ lit "/" ++ endpoint
    /\ req_json req = json_data
    /\ req_params req = params.
Proof.
  intros H. unfold _make_api_request, _get_api_token. rewrite H. simpl.
  match goal with
  | |- context [send w ?r] => exists r; destruct (send w r) as [st dec|e]
  end.
  - destruct (negb (is_success st)); [|destruct (st =? 204)%Z];
      eexists; repeat split.
  - eexists; repeat split.
Qed.

Lemma request_log (w : world) (endpoint method : str)
    (json_data params : option dict) (log : list request) (req : request) :
  In req (snd (_make_api_request w endpoint method json_data params log)) ->
  In req log
  \/ (req_method req = method
      /\ req_url req = API_BASE_URL ++ lit "/" ++ endpoint
      /\ req_json req = json_data
      /\ req_params req = params).
Proof.
  destruct (some_text (environ w TOKEN_VAR)) eqn:Htok.
  - destruct (request_sent w endpoint method json_data params log Htok)
      as (r0 & r & -> & Hm & Hu & Hj & Hp).
    simpl. intros H. apply in_app_or in H as [H|[<-|[]]]; auto.
  - rewrite request_without_token by assumption. simpl. auto.
Qed.

(** A handler that makes one call and then only formats the answer
    sends what the call sent. *)
Lemma handled_call_log {A} (m : Eff A) (k : A -> result str) :
  snd (handled (ebind m (fun a => lift (k a)))) = snd (m []).
Proof.
  unfold handled, ebind, lift.
  destruct (m []) as [[e|a] log]; simpl; [reflexivity|].
  now destruct (k a).
Qed.

Lemma update_task_log {RT : Runtime} (w : world) (p : UpdateTaskInput.t) :
  snd (todoist_update_task w p)
  = match update_task_data p with
    | [] => []
    | _ :: _ =>
        snd (_make_api_request w
               (lit "tasks/" ++ UpdateTaskInput.task_id p) (lit "POST")
               (Some (update_task_data p)) None [])
    end.
Proof.
  unfold todoist_update_task, update_task_body.
  destruct (update_task_data p) eqn:E; [reflexivity|].
  apply handled_call_log.
Qed.


(** C3: an update whose request body is empty returns the "no fields to
    update" message and sends nothing.  Any request the update tool
    sends is a POST to [tasks/{task_id}] whose body is the dict built
    from the parameters, and every entry of that dict is a field that
    was supplied (not [None]) with the value supplied; with a
    credential set and a non-empty body exactly one request is sent. *)
Theorem update_task_partial {RT : Runtime} (w : world)
    (p : UpdateTaskInput.t) :
  (update_task_data p = [] ->
   todoist_update_task w p = (NOTHING_TO_UPDATE, []))
  /\ (forall req, In req (snd (todoist_update_task w p)) ->
        req_method req = lit "POST"
        /\ req_url req
           = API_BASE_URL ++ lit "/tasks/" ++ UpdateTaskInput.task_id p
        /\ req_json req = Some (update_task_data p))
  /\ (forall k v, In (k, v) (update_task_data p) ->
        In (k, v) (supplied_fields p))
  /\ (update_task_data p <> [] ->
      some_text (environ w TOKEN_VAR) = true ->
      length (snd (todoist_update_task w p)) = 1).
Proof.
  repeat split.
  - intros E. unfold todoist_update_task, update_task_body. now rewrite E.
  - rewrite update_task_log in H.
    destruct (update_task_data p); [destruct H|].
    apply request_log in H as [[]|(Hm & _)]. exact Hm.
  - rewrite update_task_log in H.
    destruct (update_task_data p); [destruct H|].
    apply request_log in H as [[]|(_ & Hu & _)]. exact Hu.
  - rewrite update_task_log in H.
    destruct (update_task_data p) eqn:E; [destruct H|].
    apply request_log in H as [[]|(_ & _ & Hj & _)]. exact Hj.
  - intros k v. apply update_task_data_supplied.
  - intros Hne Htok. rewrite update_task_log.
    destruct (update_task_data p) eqn:E; [congruence|].
    match goal with
    | |- context [_make_api_request ?a ?b ?c ?j ?q ?l] =>
        destruct (request_sent a b c j q l Htok) as (req & r & Heq & _)
    end.
    rewrite Heq. reflexivity.
Qed.

Lemma update_task_partial_witness :
  update_task_data update_nothing = []
  /\ @todoist_update_task sample_runtime ready_world update_nothing
     = (NOTHING_TO_UPDATE, [])
  /\ update_task_data update_content <> []
  /\ some_text (environ ready_world TOKEN_VAR) = true
  /\ length (snd (@todoist_update_task sample_runtime ready_world
                    update_content)) = 1
  /\ In (lit "content", JStr (lit "Buy milk")) (supplied_fields update_content).
Proof.
  split; [reflexivity|]. split.
  { apply (@update_task_partial sample_runtime ready_world update_nothing).
    reflexivity. }
  split; [vm_compute; discriminate|]. split; [reflexivity|]. split.
  { apply (@update_task_partial sample_runtime ready_world update_content).
    - vm_compute; discriminate.
    - reflexivity. }
  apply (@update_task_partial sample_runtime ready_world update_content).
  simpl. left. reflexivity.
Defined.



(** ** Validation of the update input *)

Lemma lstrip_blank {RT : Runtime} (s : str) :
  forallb is_space s = true -> lstrip s = [].
Proof.
  induction s as [|c s IH]; simpl; [reflexivity|].
  intros H. apply andb_true_iff in H as [Hc Hs]. rewrite Hc. now apply IH.
Qed.

Lemma strip_blank {RT : Runtime} (s : str) :
  forallb is_space s = true -> strip s = [].
Proof. intros H. unfold strip. now rewrite (lstrip_blank s H). Qed.

Lemma validate_update_content {RT : Runtime} (r : UpdateTaskInput.raw)
    (p : UpdateTaskInput.t) :
  UpdateTaskInput.validate r = Some p ->
  UpdateTaskInput.content p = option_map strip (UpdateTaskInput.raw_content r).
Proof.
  unfold UpdateTaskInput.validate.
  destruct (_ && _ && _); [|discriminate].
  destruct (UpdateTaskInput.raw_priority r) as [n|].
  - destruct (to_priority n); [|discriminate].
    intros H. injection H as <-. reflexivity.
  - intros H. injection H as <-. reflexivity.
Qed.

(** C10: in the body of an update, [description] and [labels] are
    present with their value whenever they are not [None], the empty
    string and the empty list included, and then the body is not empty;
    [content], [due_string], [due_date] and [priority] are absent
    whenever they are falsy.  An update that names only a [content]
    made of white space is validated to the empty content and returns
    the "no fields to update" message without a request; an update that
    names only the empty [description] goes on to the request executor
    with that description as body, which, when the credential is set,
    sends one POST. *)
Theorem update_task_asymmetry {RT : Runtime} (w : world)
    (p : UpdateTaskInput.t) :
  (forall d, UpdateTaskInput.description p = Some d ->
     lookup (lit "description") (update_task_data p) = Some (JStr d)
     /\ update_task_data p <> [])
  /\ (forall l, UpdateTaskInput.labels p = Some l ->
        lookup (lit "labels") (update_task_data p) = Some (JArr (map JStr l))
        /\ update_task_data p <> [])
  /\ (some_text (UpdateTaskInput.content p) = false ->
      lookup (lit "content") (update_task_data p) = None)
  /\ (some_text (UpdateTaskInput.due_string p) = false ->
      lookup (lit "due_string") (update_task_data p) = None)
  /\ (some_text (UpdateTaskInput.due_date p) = false ->
      lookup (lit "due_date") (update_task_data p) = None)
  /\ (some_priority (UpdateTaskInput.priority p) = false ->
      lookup (lit "priority") (update_task_data p) = None)
  /\ (forall r s,
        UpdateTaskInput.validate r = Some p ->
        UpdateTaskInput.raw_content r = Some s ->
        forallb is_space s = true ->
        only_content p = true ->
        UpdateTaskInput.content p = Some []
        /\ todoist_update_task w p = (NOTHING_TO_UPDATE, []))
  /\ (UpdateTaskInput.description p = Some [] ->
      only_description p = true ->
      update_task_body w p
      = (task <- _make_api_request w
                   (lit "tasks/" ++ UpdateTaskInput.task_id p) (lit "POST")
                   (Some [(lit "description", JStr [])]) None ;;
         lift (confirm (lit "Updated task") (lit "content") task []))%eff)
  /\ (UpdateTaskInput.description p = Some [] ->
      only_description p = true ->
      some_text (environ w TOKEN_VAR) = true ->
      exists req,
        snd (todoist_update_task w p) = [req]
        /\ req_method req = lit "POST"
        /\ req_json req = Some [(lit "description", JStr [])]).
Proof.
  assert (Hdesc : UpdateTaskInput.description p = Some [] ->
                  only_description p = true ->
                  update_task_data p = [(lit "description", JStr [])]).
  { intros Hd Hon.
    unfold update_task_data. unfold only_description in Hon. rewrite Hd.
    destruct (UpdateTaskInput.content p); [discriminate|].
    destruct (UpdateTaskInput.due_string p); [discriminate|].
    destruct (UpdateTaskInput.due_date p); [discriminate|].
    destruct (UpdateTaskInput.priority p); [discriminate|].
    destruct (UpdateTaskInput.labels p); [discriminate|].
    reflexivity. }
  split; [|split; [|split; [|split; [|split; [|split; [|split; [|split]]]]]]].
  - intros d Hd.
    assert (H : lookup (lit "description") (update_task_data p)
                = Some (JStr d)).
    { unfold update_task_data. lookup_body. rewrite Hd. reflexivity. }
    split; [exact H|]. intros E. rewrite E in H. discriminate.
  - intros l Hl.
    assert (H : lookup (lit "labels") (update_task_data p)
                = Some (JArr (map JStr l))).
    { unfold update_task_data. lookup_body. rewrite Hl. reflexivity. }
    split; [exact H|]. intros E. rewrite E in H. discriminate.
  - intros H. unfold update_task_data. lookup_body. rewrite H. reflexivity.
  - intros H. unfold update_task_data. lookup_body. rewrite H. reflexivity.
  - intros H. unfold update_task_data. lookup_body. rewrite H.
    now rewrite andb_false_r.
  - intros H. unfold update_task_data. lookup_body. rewrite H. reflexivity.
  - intros r s Hv Hc Hs Hon.
    pose proof (validate_update_content r Hv) as Hp.
    rewrite Hc in Hp. simpl in Hp. rewrite (strip_blank s Hs) in Hp.
    split; [exact Hp|].
    unfold todoist_update_task, update_task_body, update_task_data.
    unfold only_content in Hon. rewrite Hp.
    destruct (UpdateTaskInput.description p); [discriminate|].
    destruct (UpdateTaskInput.due_string p);
      [rewrite ?andb_false_r in Hon; discriminate|].
    destruct (UpdateTaskInput.due_date p);
      [rewrite ?andb_false_r in Hon; discriminate|].
    destruct (UpdateTaskInput.priority p);
      [rewrite ?andb_false_r in Hon; discriminate|].
    destruct (UpdateTaskInput.labels p); [discriminate|].
    reflexivity.
  - intros Hd Hon. unfold update_task_body.
    now rewrite (Hdesc Hd Hon).
  - intros Hd Hon Htok.
    rewrite update_task_log, (Hdesc Hd Hon).
    match goal with
    | |- context [_make_api_request ?a ?b ?c ?j ?q ?l] =>
        destruct (request_sent a b c j q l Htok)
          as (req & r & Heq & Hm & _ & Hj & _)
    end.
    exists req. rewrite Heq. repeat split; assumption.
Qed.

Lemma update_task_asymmetry_witness :
  (UpdateTaskInput.validate (RT := sample_runtime) update_blank_content_raw
   = Some update_blank_content
   /\ @todoist_update_task sample_runtime ready_world update_blank_content
      = (NOTHING_TO_UPDATE, []))
  /\ (lookup (lit "description") (update_task_data update_empty_description)
      = Some (JStr [])
      /\ exists req,
          snd (@todoist_update_task sample_runtime ready_world
                 update_empty_description) = [req]
          /\ req_method req = lit "POST"
          /\ req_json req = Some [(lit "description", JStr [])])
  /\ lookup (lit "content") (update_task_data update_blank_content) = None.
Proof.
  split; [split; [reflexivity|]|split; [split|]].
  - apply (proj1 (proj2 (proj2 (proj2 (proj2 (proj2 (proj2
             (@update_task_asymmetry sample_runtime ready_world
                update_blank_content)))))))
             update_blank_content_raw (lit "   "));
      reflexivity.
  - apply (@update_task_asymmetry sample_runtime ready_world
             update_empty_description). reflexivity.
  - apply (@update_task_asymmetry sample_runtime ready_world
             update_empty_description); reflexivity.
  - apply (@update_task_asymmetry sample_runtime ready_world
             update_blank_content). reflexivity.
Defined.

(** ** Due dates *)

Lemma subscript_truthy {RT : Runtime} (d : dict) (k : str) :
  truthy (get_or d k JNull) = true ->
  py_subscript (JObj d) k = ok (get_or d k JNull).
Proof.
  unfold get_or, py_subscript.
  destruct (lookup k d); [reflexivity | discriminate].
Qed.

(** C4 (counterexample): a due object whose [string] is present and
    empty is rendered as its date alone, not as the string followed by
    the date in parentheses. *)
Lemma empty_due_string_shows_date :
  lookup (lit "datetime") due_with_empty_string = None
  /\ lookup (lit "string") due_with_empty_string = Some (JStr [])
  /\ lookup (lit "date") due_with_empty_string
     = Some (JStr (lit "2024-01-15"))
  /\ @_format_due sample_runtime (JObj due_with_empty_string)
     = ok (JStr (lit "2024-01-15"))
  /\ @_format_due sample_runtime (JObj due_with_empty_string)
     <> ok (JStr ([] ++ lit " (" ++ lit "2024-01-15" ++ lit ")")).
Proof.
  repeat (split; [reflexivity|]).
  vm_compute. discriminate.
Qed.

(** C4 (amended): the due value of a task is rendered by the first case
    that applies: no due object, or an empty one, gives "No due date";
    a truthy [datetime] is rendered alone; otherwise a truthy (present
    and non-empty) [string] is rendered followed by the [date] in
    parentheses; otherwise the [date] is rendered. *)
Theorem format_due_order {RT : Runtime} (d : dict) :
  _format_due JNull = ok (JStr (lit "No due date"))
  /\ _format_due (JObj []) = ok (JStr (lit "No due date"))
  /\ (d <> [] ->
      truthy (get_or d (lit "datetime") JNull) = true ->
      _format_due (JObj d) = ok (get_or d (lit "datetime") JNull))
  /\ (d <> [] ->
      truthy (get_or d (lit "datetime") JNull) = false ->
      truthy (get_or d (lit "string") JNull) = true ->
      _format_due (JObj d)
      = ok (JStr (py_str (get_or d (lit "string") JNull) ++ lit " ("
                  ++ py_str (get_or d (lit "date") (JStr [])) ++ lit ")")))
  /\ (d <> [] ->
      truthy (get_or d (lit "datetime") JNull) = false ->
      truthy (get_or d (lit "string") JNull) = false ->
      _format_due (JObj d) = ok (get_or d (lit "date") (JStr []))).
Proof.
  split; [reflexivity|]. split; [reflexivity|].
  assert (Hobj : d <> [] -> truthy (JObj d) = true).
  { destruct d; [congruence | reflexivity]. }
  repeat split.
  - intros Hd Hdt. unfold _format_due. rewrite (Hobj Hd).
    cbn [negb rbind py_get py_get_default ok].
    fold (get_or d (lit "datetime") JNull). rewrite Hdt.
    now apply subscript_truthy.
  - intros Hd Hdt Hs. unfold _format_due. rewrite (Hobj Hd).
    cbn [negb rbind py_get py_get_default ok].
    fold (get_or d (lit "datetime") JNull). rewrite Hdt.
    fold (get_or d (lit "string") JNull). rewrite Hs.
    rewrite (subscript_truthy d (lit "string") Hs). reflexivity.
  - intros Hd Hdt Hs. unfold _format_due. rewrite (Hobj Hd).
    cbn [negb rbind py_get py_get_default ok].
    fold (get_or d (lit "datetime") JNull). rewrite Hdt.
    fold (get_or d (lit "string") JNull). rewrite Hs.
    reflexivity.
Qed.

Lemma format_due_order_witness :
  @_format_due sample_runtime (JObj due_with_datetime)
  = ok (JStr (lit "2024-01-15T09:00:00"))
  /\ @_format_due sample_runtime (JObj due_with_string)
     = ok (JStr (lit "Jan 15 (2024-01-15)"))
  /\ @_format_due sample_runtime (JObj due_with_date)
     = ok (JStr (lit "2024-01-15")).
Proof.
  split; [|split].
  - apply (proj1 (proj2 (proj2
             (@format_due_order sample_runtime due_with_datetime)))).
    + discriminate.
    + reflexivity.
  - apply (proj1 (proj2 (proj2 (proj2
             (@format_due_order sample_runtime due_with_string))))).
    + discriminate.
    + reflexivity.
    + reflexivity.
  - apply (proj2 (proj2 (proj2 (proj2
             (@format_due_order sample_runtime due_with_date))))).
    + discriminate.
    + reflexivity.
    + reflexivity.
Defined.

(** ** The task views *)

Lemma task_lines_inv {RT : Runtime} (t : json) (lines : list str) :
  task_lines t = ok lines ->
  exists d content id due pl labels,
    t = JObj d
    /\ lookup (lit "content") d = Some content
    /\ lookup (lit "id") d = Some id
    /\ _format_due (get_or d (lit "due") JNull) = ok due
    /\ _priority_label (get_or d (lit "priority") (JNum 1)) = ok pl
    /\ labels_text t = ok labels
    /\ exists tail,
        lines =
          [lit "### " ++ priority_mark (get_or d (lit "priority") JNull)
             ++ lit " " ++ py_str content;
           lit "- **ID**: `" ++ py_str id ++ lit "`";
           lit "- **Due**: " ++ py_str due;
           lit "- **Priority**: " ++ pl;
           lit "- **Labels**: " ++ labels] ++ tail
        /\ if truthy (get_or d (lit "description") JNull)
           then exists shown,
               list_description t = ok shown
               /\ tail = [lit "- **Description**: " ++ py_str shown; []]
           else tail = [[]].
Proof.
  unfold task_lines.
  destruct t as [| | | |l|d]; try discriminate.
  cbn [py_get rbind ok].
  fold (get_or d (lit "due") JNull).
  destruct (_format_due _) as [e|due] eqn:Hdue; [discriminate|].
  cbn [rbind].
  destruct (labels_text (JObj d)) as [e|labels] eqn:Hlab; [discriminate|].
  cbn [rbind py_subscript].
  destruct (lookup (lit "content") d) as [content|] eqn:Hc; [|discriminate].
  cbn [rbind ok].
  destruct (lookup (lit "id") d) as [id|] eqn:Hi; [|discriminate].
  cbn [rbind ok py_get_default].
  fold (get_or d (lit "priority") (JNum 1)).
  destruct (_priority_label _) as [e|pl] eqn:Hpl; [discriminate|].
  cbn [rbind].
  fold (get_or d (lit "priority") JNull).
  fold (get_or d (lit "description") JNull).
  intros H.
  exists d, content, id, due, pl, labels.
  repeat (split; [first [reflexivity | assumption]|]).
  destruct (truthy (get_or d (lit "description") JNull)).
  - destruct (list_description (JObj d)) as [e|shown]; [discriminate|].
    cbn [rbind] in H. injection H as <-.
    eexists. split; [reflexivity|]. exists shown. split; reflexivity.
  - injection H as <-. eexists. split; reflexivity.
Qed.

Lemma task_detail_lines_inv {RT : Runtime} (t : json) (lines : list json) :
  task_detail_lines t = ok lines ->
  exists d content id due pl labels,
    t = JObj d
    /\ lookup (lit "content") d = Some content
    /\ lookup (lit "id") d = Some id
    /\ _format_due (get_or d (lit "due") JNull) = ok due
    /\ _priority_label (get_or d (lit "priority") (JNum 1)) = ok pl
    /\ labels_text t = ok labels
    /\ exists tail,
        lines =
          [JStr (lit "# " ++ py_str content);
           JStr [];
           JStr (lit "- **ID**: `" ++ py_str id ++ lit "`");
           JStr (lit "- **Project**: `"
                 ++ py_str (get_or d (lit "project_id") (JStr (lit "Inbox")))
                 ++ lit "`");
           JStr (lit "- **Due**: " ++ py_str due);
           JStr (lit "- **Priority**: " ++ pl);
           JStr (lit "- **Labels**: " ++ labels);
           JStr (lit "- **Created**: "
                 ++ py_str (get_or d (lit "created_at")
                              (JStr (lit "unknown"))))] ++ tail
        /\ if truthy (get_or d (lit "description") JNull)
           then exists rest,
               tail = [JStr []; JStr (lit "## Description");
                       get_or d (lit "description") JNull] ++ rest
           else True.
Proof.
  unfold task_detail_lines.
  destruct t as [| | | |l|d]; try discriminate.
  cbn [py_subscript rbind ok].
  destruct (lookup (lit "content") d) as [content|] eqn:Hc; [|discriminate].
  cbn [rbind ok].
  destruct (lookup (lit "id") d) as [id|] eqn:Hi; [|discriminate].
  cbn [rbind ok py_get_default py_get].
  fold (get_or d (lit "project_id") (JStr (lit "Inbox"))).
  fold (get_or d (lit "due") JNull).
  destruct (_format_due _) as [e|due] eqn:Hdue; [discriminate|].
  cbn [rbind].
  fold (get_or d (lit "priority") (JNum 1)).
  destruct (_priority_label _) as [e|pl] eqn:Hpl; [discriminate|].
  cbn [rbind].
  destruct (labels_text (JObj d)) as [e|labels] eqn:Hlab; [discriminate|].
  cbn [rbind].
  fold (get_or d (lit "created_at") (JStr (lit "unknown"))).
  fold (get_or d (lit "description") JNull).
  fold (get_or d (lit "parent_id") JNull).
  intros H.
  exists d, content, id, due, pl, labels.
  repeat (split; [first [reflexivity | assumption]|]).
  destruct (truthy (get_or d (lit "description") JNull)) eqn:Hdesc.
  - rewrite (subscript_truthy d (lit "description") Hdesc) in H.
    cbn [rbind ok] in H.
    destruct (truthy (get_or d (lit "parent_id") JNull)) eqn:Hpar.
    + rewrite (subscript_truthy d (lit "parent_id") Hpar) in H.
      cbn [rbind ok] in H. injection H as <-.
      eexists. split; [reflexivity|].
      eexists. reflexivity.
    + cbn [ok] in H. injection H as <-.
      eexists. split; [reflexivity|]. exists []. reflexivity.
  - cbn [rbind ok] in H.
    destruct (truthy (get_or d (lit "parent_id") JNull)) eqn:Hpar.
    + rewrite (subscript_truthy d (lit "parent_id") Hpar) in H.
      cbn [rbind ok] in H. injection H as <-.
      eexists. split; [reflexivity | exact I].
    + cbn [ok] in H. injection H as <-.
      exists []. split; [now rewrite app_nil_r | exact I].
Qed.

(** ** Priorities *)

Lemma display_of_label {RT : Runtime} (n : Z) (s : str) :
  display_of n = Some s -> _priority_label (JNum n) = ok s.
Proof.
  unfold display_of.
  destruct (Z.eqb_spec n 1) as [->|_]; [intros H; injection H as <-; reflexivity|].
  destruct (Z.eqb_spec n 2) as [->|_]; [intros H; injection H as <-; reflexivity|].
  destruct (Z.eqb_spec n 3) as [->|_]; [intros H; injection H as <-; reflexivity|].
  destruct (Z.eqb_spec n 4) as [->|_]; [intros H; injection H as <-; reflexivity|].
  discriminate.
Qed.

(** The lines of a task: [_priority_label] maps remote priority 1 to
    "P4 (lowest)", 2 to "P3", 3 to "P2" and 4 to "P1 (highest)", and the
    lines the list view and the detail view build for a task have that
    label on their "Priority" line.  (What the tools return is stated
    further on.) *)
Theorem priority_display {RT : Runtime} (n : Z) (s : str) :
  display_of n = Some s ->
  _priority_label (JNum n) = ok s
  /\ (forall d lines,
        lookup (lit "priority") d = Some (JNum n) ->
        task_lines (JObj d) = ok lines ->
        nth_error lines 3 = Some (lit "- **Priority**: " ++ s))
  /\ (forall d lines,
        lookup (lit "priority") d = Some (JNum n) ->
        task_detail_lines (JObj d) = ok lines ->
        nth_error lines 5 = Some (JStr (lit "- **Priority**: " ++ s))).
Proof.
  intros Hn. pose proof (display_of_label n Hn) as Hl.
  split; [exact Hl|]. split.
  - intros d lines Hp H.
    apply task_lines_inv in H
      as (d' & c & i & due & pl & lab & Hd & _ & _ & _ & Hpl & _ & tl & -> & _).
    injection Hd as <-.
    unfold get_or in Hpl. rewrite Hp, Hl in Hpl. injection Hpl as <-.
    reflexivity.
  - intros d lines Hp H.
    apply task_detail_lines_inv in H
      as (d' & c & i & due & pl & lab & Hd & _ & _ & _ & Hpl & _ & tl & -> & _).
    injection Hd as <-.
    unfold get_or in Hpl. rewrite Hp, Hl in Hpl. injection Hpl as <-.
    reflexivity.
Qed.

Lemma priority_display_witness :
  (display_of 1 = Some (lit "P4 (lowest)")
   /\ @_priority_label sample_runtime (JNum 1) = ok (lit "P4 (lowest)"))
  /\ (display_of 2 = Some (lit "P3")
      /\ @_priority_label sample_runtime (JNum 2) = ok (lit "P3"))
  /\ (display_of 3 = Some (lit "P2")
      /\ @_priority_label sample_runtime (JNum 3) = ok (lit "P2"))
  /\ (display_of 4 = Some (lit "P1 (highest)")
      /\ @_priority_label sample_runtime (JNum 4) = ok (lit "P1 (highest)"))
  /\ (exists lines,
        @task_lines sample_runtime (JObj (sample_task 4 (lit "a"))) = ok lines
        /\ nth_error lines 3 = Some (lit "- **Priority**: P1 (highest)"))
  /\ (exists lines,
        @task_detail_lines sample_runtime (JObj (sample_task 1 (lit "a")))
        = ok lines
        /\ nth_error lines 5
           = Some (JStr (lit "- **Priority**: P4 (lowest)"))).
Proof.
  split; [split; [reflexivity|]|].
  { apply (@priority_display sample_runtime 1). reflexivity. }
  split; [split; [reflexivity|]|].
  { apply (@priority_display sample_runtime 2). reflexivity. }
  split; [split; [reflexivity|]|].
  { apply (@priority_display sample_runtime 3). reflexivity. }
  split; [split; [reflexivity|]|].
  { apply (@priority_display sample_runtime 4). reflexivity. }
  split.
  - eexists. split; [reflexivity|].
    apply (proj1 (proj2 (@priority_display sample_runtime 4
                           (lit "P1 (highest)") eq_refl))
             (sample_task 4 (lit "a"))); reflexivity.
  - eexists. split; [reflexivity|].
    apply (proj2 (proj2 (@priority_display sample_runtime 1
                           (lit "P4 (lowest)") eq_refl))
             (sample_task 1 (lit "a"))); reflexivity.
Defined.

(** ** Descriptions *)

Lemma list_description_text {RT : Runtime} (d : dict) (s : str) :
  lookup (lit "description") d = Some (JStr s) ->
  list_description (JObj d)
  = ok (JStr (if (len s >? 200)%Z then firstn 200 s ++ lit "..." else s)).
Proof.
  intros H. unfold list_description.
  cbn [py_get_default py_len py_subscript rbind ok]. rewrite H.
  cbn [py_len rbind ok].
  destruct (len s >? 200)%Z; reflexivity.
Qed.

(** The lines of a task whose description is the string [s]: the lines
    of the list view have as "Description" line the first 200 characters
    of [s] followed by "..." when [s] has more than 200 characters, and
    [s] itself when it has at most 200; the lines of the detail view
    have [s] itself, whatever its length, after the "## Description"
    heading.  (An empty description has no line: the lines of the list
    view then end after the labels.  What the tools return is stated
    further on.) *)
Theorem description_elision {RT : Runtime} (d : dict) (s : str) :
  lookup (lit "description") d = Some (JStr s) ->
  (forall lines,
      task_lines (JObj d) = ok lines ->
      ((200 < len s)%Z ->
       nth_error lines 5
       = Some (lit "- **Description**: " ++ firstn 200 s ++ lit "..."))
      /\ ((0 < len s <= 200)%Z ->
          nth_error lines 5 = Some (lit "- **Description**: " ++ s))
      /\ (len s = 0%Z -> nth_error lines 5 = Some [] /\ length lines = 6))
  /\ (forall lines,
        task_detail_lines (JObj d) = ok lines ->
        (0 < len s)%Z ->
        nth_error lines 9 = Some (JStr (lit "## Description"))
        /\ nth_error lines 10 = Some (JStr s)).
Proof.
  intros Hd.
  assert (Hg : get_or d (lit "description") JNull = JStr s).
  { unfold get_or. now rewrite Hd. }
  assert (Ht : (0 < len s)%Z -> truthy (JStr s) = true).
  { destruct s; [unfold len; simpl; lia | reflexivity]. }
  assert (Hf : len s = 0%Z -> truthy (JStr s) = false).
  { destruct s; [reflexivity | unfold len; simpl; lia]. }
  split.
  - intros lines H.
    apply task_lines_inv in H
      as (d' & c & i & due & pl & lab & Hd' & _ & _ & _ & _ & _
          & tl & -> & Htl).
    injection Hd' as <-. rewrite Hg in Htl.
    split; [|split]; intros Hlen.
    + rewrite Ht in Htl by lia. destruct Htl as (shown & Hshown & ->).
      rewrite (list_description_text d Hd) in Hshown.
      injection Hshown as <-.
      destruct (Z.gtb_spec (len s) 200); [reflexivity | lia].
    + rewrite Ht in Htl by lia. destruct Htl as (shown & Hshown & ->).
      rewrite (list_description_text d Hd) in Hshown.
      injection Hshown as <-.
      destruct (Z.gtb_spec (len s) 200); [lia | reflexivity].
    + rewrite (Hf Hlen) in Htl. subst tl. split; reflexivity.
  - intros lines H Hlen.
    apply task_detail_lines_inv in H
      as (d' & c & i & due & pl & lab & Hd' & _ & _ & _ & _ & _
          & tl & -> & Htl).
    injection Hd' as <-.
    rewrite Hg, (Ht Hlen) in Htl. destruct Htl as (rest & ->).
    split; reflexivity.
Qed.

Lemma description_elision_witness :
  (exists lines,
      @task_lines sample_runtime (JObj (sample_task 1 long_text)) = ok lines
      /\ len long_text = 201%Z
      /\ nth_error lines 5
         = Some (lit "- **Description**: " ++ short_text ++ lit "..."))
  /\ (exists lines,
        @task_lines sample_runtime (JObj (sample_task 1 short_text))
        = ok lines
        /\ len short_text = 200%Z
        /\ nth_error lines 5 = Some (lit "- **Description**: " ++ short_text))
  /\ (exists lines,
        @task_lines sample_runtime (JObj (sample_task 1 [])) = ok lines
        /\ length lines = 6)
  /\ (exists lines,
        @task_detail_lines sample_runtime (JObj (sample_task 1 long_text))
        = ok lines
        /\ nth_error lines 10 = Some (JStr long_text)).
Proof.
  split; [|split; [|split]].
  - eexists. split; [reflexivity|]. split; [reflexivity|].
    apply (proj1 (@description_elision sample_runtime
                    (sample_task 1 long_text) long_text eq_refl)).
    + reflexivity.
    + vm_compute. reflexivity.
  - eexists. split; [reflexivity|]. split; [reflexivity|].
    apply (proj1 (@description_elision sample_runtime
                    (sample_task 1 short_text) short_text eq_refl)).
    + reflexivity.
    + vm_compute. split; [reflexivity | discriminate].
  - eexists. split; [reflexivity|].
    apply (proj1 (@description_elision sample_runtime
                    (sample_task 1 []) [] eq_refl)); reflexivity.
  - eexists. split; [reflexivity|].
    apply (proj2 (@description_elision sample_runtime
                    (sample_task 1 long_text) long_text eq_refl)).
    + reflexivity.
    + vm_compute. reflexivity.
Defined.

(** ** The limit of the task list *)

Lemma validate_list_limit {RT : Runtime} (r : ListTasksInput.raw)
    (p : ListTasksInput.t) :
  ListTasksInput.validate r = Some p ->
  (1 <= ListTasksInput.limit p <= 200)%Z
  /\ ListTasksInput.limit p
     = match ListTasksInput.raw_limit r with
       | Some n => n
       | None => 50%Z
       end.
Proof.
  unfold ListTasksInput.validate, ListTasksInput.default_limit.
  destruct (_ && _) eqn:E; [|discriminate].
  intros H. injection H as <-. simpl.
  apply andb_true_iff in E as [E1 E2].
  apply Z.leb_le in E1, E2. split; [lia | reflexivity].
Qed.

Lemma validate_list_rejects {RT : Runtime} (r : ListTasksInput.raw) (n : Z) :
  ListTasksInput.raw_limit r = Some n ->
  (n < 1 \/ 200 < n)%Z ->
  ListTasksInput.validate r = None.
Proof.
  intros Hr Hn. unfold ListTasksInput.validate. rewrite Hr.
  destruct (Z.leb_spec 1 n); destruct (Z.leb_spec n 200);
    simpl; try reflexivity; lia.
Qed.

Lemma list_tasks_answer {RT : Runtime} (w : world) (p : ListTasksInput.t)
    (tasks : json) :
  some_text (environ w TOKEN_VAR) = true ->
  (forall req, send w req = Answer 200 (inr tasks)) ->
  fst (todoist_list_tasks w p) = returned (list_tasks_view p tasks).
Proof.
  intros Htok Hsend.
  unfold todoist_list_tasks, handled, list_tasks_body, ebind, lift.
  unfold _make_api_request, _get_api_token. rewrite Htok. simpl.
  rewrite Hsend. simpl.
  now destruct (list_tasks_view p tasks).
Qed.

(** C7: a validated list-tasks input has its limit between 1 and 200,
    50 when none was given, and a limit outside that range is refused.
    The answer of the server, a non-empty list, is cut to its first
    [limit] elements, and only those are rendered, as JSON or as
    markdown; an answer that is empty renders as the sentence "No tasks
    found matching your criteria." in both modes. *)
Theorem list_tasks_limit {RT : Runtime} (r : ListTasksInput.raw)
    (p : ListTasksInput.t) (l : list json) :
  ListTasksInput.validate r = Some p ->
  let shown := firstn (Z.to_nat (ListTasksInput.limit p)) l in
  (1 <= ListTasksInput.limit p <= 200)%Z
  /\ (ListTasksInput.raw_limit r = None -> ListTasksInput.limit p = 50%Z)
  /\ (forall r' n,
        ListTasksInput.raw_limit r' = Some n ->
        (n < 1 \/ 200 < n)%Z ->
        ListTasksInput.validate r' = None)
  /\ (Z.of_nat (length shown) <= ListTasksInput.limit p)%Z
  /\ (l <> [] ->
      list_tasks_view p (JArr l)
      = match ListTasksInput.response_format p with
        | JSON => ok (json_dumps (JArr shown))
        | MARKDOWN => render_tasks (JArr shown)
        end)
  /\ (forall tasks,
        truthy tasks = false ->
        list_tasks_view p tasks
        = ok (lit "No tasks found matching your criteria."))
  /\ (forall w tasks,
        some_text (environ w TOKEN_VAR) = true ->
        (forall req, send w req = Answer 200 (inr tasks)) ->
        fst (todoist_list_tasks w p) = returned (list_tasks_view p tasks)).
Proof.
  intros Hv shown.
  destruct (validate_list_limit r Hv) as [Hrange Hlim].
  split; [exact Hrange|]. split.
  { intros Hnone. now rewrite Hnone in Hlim. }
  split; [exact (@validate_list_rejects RT)|]. split.
  { subst shown. rewrite length_firstn. lia. }
  split.
  { intros Hl. unfold list_tasks_view.
    assert (Ht : truthy (JArr l) = true) by (destruct l; [congruence | reflexivity]).
    rewrite Ht. cbn [negb py_slice_to rbind ok].
    rewrite slice_to_firstn by lia. reflexivity. }
  split.
  { intros tasks Ht. unfold list_tasks_view. now rewrite Ht. }
  intros w tasks. apply list_tasks_answer.
Qed.

Lemma list_tasks_limit_witness :
  ListTasksInput.validate (RT := sample_runtime) list_two_raw = Some list_two
  /\ ListTasksInput.validate (RT := sample_runtime) list_default_raw
     = Some list_default
  /\ ListTasksInput.limit list_default = 50%Z
  /\ @list_tasks_view sample_runtime list_two (JArr three_tasks)
     = @render_tasks sample_runtime (JArr (firstn 2 three_tasks))
  /\ fst (@todoist_list_tasks sample_runtime tasks_world list_two)
     = returned (@list_tasks_view sample_runtime list_two (JArr three_tasks))
  /\ fst (@todoist_list_tasks sample_runtime ready_world list_two)
     = lit "No tasks found matching your criteria.".
Proof.
  split; [reflexivity|]. split; [reflexivity|]. split.
  { apply (proj1 (proj2 (@list_tasks_limit sample_runtime list_default_raw
                           list_default [] eq_refl))).
    reflexivity. }
  split.
  { apply (proj1 (proj2 (proj2 (proj2 (proj2
             (@list_tasks_limit sample_runtime list_two_raw list_two
                three_tasks eq_refl)))))).
    discriminate. }
  split.
  { apply (proj2 (proj2 (proj2 (proj2 (proj2 (proj2
             (@list_tasks_limit sample_runtime list_two_raw list_two
                three_tasks eq_refl)))))) tasks_world (JArr three_tasks));
      reflexivity. }
  rewrite (proj2 (proj2 (proj2 (proj2 (proj2 (proj2
             (@list_tasks_limit sample_runtime list_two_raw list_two
                three_tasks eq_refl)))))) ready_world (JObj [])
             eq_refl (fun _ => eq_refl)).
  reflexivity.
Defined.

(** * Further properties of the handlers *)

(** ** The round trip in one piece *)

Lemma make_request_run (w : world) (endpoint method : str)
    (json_data params : option dict) (log : list request) :
  _make_api_request w endpoint method json_data params log
  = match environ w TOKEN_VAR with
    | Some (c :: t) =>
        let req := the_request (c :: t) endpoint method json_data params in
        (reply_result (send w req), log ++ [req])
    | _ => (inl (ValueError TOKEN_MESSAGE), log)
    end.
Proof.
  unfold _make_api_request, _get_api_token.
  destruct (environ w TOKEN_VAR) as [[|c t]|]; simpl; try reflexivity.
  fold (the_request (c :: t) endpoint method json_data params).
  destruct (send w _) as [status decoded|e]; simpl; [|reflexivity].
  destruct (is_success status); simpl; [|reflexivity].
  destruct (status =? 204)%Z; reflexivity.
Qed.

Lemma tool_body_run {RT : Runtime} (w : world) (c : tool_call)
    (log : list request) :
  tool_body w c log
  = match tool_request c with
    | None => (inr NOTHING_TO_UPDATE, log)
    | Some (endpoint, method, json_data, params) =>
        match _make_api_request w endpoint method json_data params log with
        | (inl e, log') => (inl e, log')
        | (inr answer, log') => (tool_render c answer, log')
        end
    end.
Proof.
  destruct c; cbn [tool_body tool_request tool_render];
    try (unfold list_projects_body, get_project_body, create_project_body,
           list_tasks_body, get_task_body, create_task_body,
           complete_task_body, reopen_task_body, delete_task_body,
           list_labels_body, create_label_body, ebind, lift, eret;
         match goal with
         | |- context [_make_api_request ?a ?b ?c ?j ?q ?l] =>
             destruct (_make_api_request a b c j q l) as [[e|answer] log']
         end; try reflexivity;
         repeat match goal with
                | |- context [if ?b then _ else _] => destruct b
                | |- context [match ?f with MARKDOWN => _ | JSON => _ end] =>
                    destruct f
                end; reflexivity).
  unfold update_task_body.
  destruct (update_task_data p) eqn:E; [reflexivity|].
  unfold ebind, lift.
  match goal with
  | |- context [_make_api_request ?a ?b ?c ?j ?q ?l] =>
      destruct (_make_api_request a b c j q l) as [[e|answer] log']
  end; reflexivity.
Qed.

(** The three ways a tool call can go: it returns before any call (an
    update with nothing to send), it stops at the missing credential, or
    it sends one request and renders the reply. *)
Lemma call_tool_cases {RT : Runtime} (w : world) (c : tool_call) :
  (tool_request c = None /\ call_tool w c = (NOTHING_TO_UPDATE, []))
  \/ (tool_request c <> None
      /\ some_text (environ w TOKEN_VAR) = false
      /\ call_tool w c = (_handle_api_error (ValueError TOKEN_MESSAGE), []))
  \/ (exists endpoint method json_data params token req,
        tool_request c = Some (endpoint, method, json_data, params)
        /\ environ w TOKEN_VAR = Some token
        /\ token <> []
        /\ req = the_request token endpoint method json_data params
        /\ call_tool w c
           = (returned (rbind (reply_result (send w req)) (tool_render c)),
              [req])).
Proof.
  rewrite call_tool_handled. unfold handled. rewrite tool_body_run.
  destruct (tool_request c) as [[[[endpoint method] json_data] params]|];
    [|left; split; reflexivity].
  right. rewrite make_request_run.
  destruct (environ w TOKEN_VAR) as [[|ch t]|] eqn:Htok.
  - left. repeat split; congruence.
  - right.
    exists endpoint, method, json_data, params, (ch :: t),
      (the_request (ch :: t) endpoint method json_data params).
    repeat split; try congruence.
    cbv zeta. simpl app.
    destruct (reply_result _) as [e|answer]; simpl; [reflexivity|].
    destruct (tool_render c answer); reflexivity.
  - left. repeat split; congruence.
Qed.

Lemma call_tool_sent {RT : Runtime} (w : world) (c : tool_call)
    (req : request) :
  snd (call_tool w c) = [req] ->
  exists endpoint method json_data params token,
    tool_request c = Some (endpoint, method, json_data, params)
    /\ environ w TOKEN_VAR = Some token
    /\ token <> []
    /\ req = the_request token endpoint method json_data params
    /\ fst (call_tool w c)
       = returned (rbind (reply_result (send w req)) (tool_render c)).
Proof.
  intros Hlog.
  destruct (call_tool_cases w c)
    as [[_ H]|[(_ & _ & H)|(ep & m & j & q & token & r & Ht & He & Hn & Hr & H)]];
    rewrite H in Hlog; simpl in Hlog; try discriminate.
  injection Hlog as <-.
  exists ep, m, j, q, token. rewrite H. repeat split; assumption.
Qed.

(** ** Requests *)

(** X1: a tool call calls [client.request] at most once.  The call is
    given as URL the string made of [API_BASE_URL], "/" and the
    endpoint, as [headers] exactly two entries, the bearer
    authorisation built from the non-empty value [TODOIST_API_TOKEN]
    has at the time of the call and the JSON content type, and 30 as
    [timeout]. *)
Theorem one_authenticated_request {RT : Runtime} (w : world)
    (c : tool_call) :
  snd (call_tool w c) = []
  \/ exists token req endpoint method json_data params,
      snd (call_tool w c) = [req]
      /\ tool_request c = Some (endpoint, method, json_data, params)
      /\ environ w TOKEN_VAR = Some token
      /\ token <> []
      /\ req_url req = API_BASE_URL ++ lit "/" ++ endpoint
      /\ req_headers req
         = [(lit "Authorization", lit "Bearer " ++ token);
            (lit "Content-Type", lit "application/json")]
      /\ req_timeout req = 30%Z.
Proof.
  destruct (call_tool_cases w c)
    as [[_ H]|[(_ & _ & H)|(ep & m & j & q & token & r & Ht & He & Hn & Hr & H)]];
    rewrite H; simpl; [now left | now left |].
  right. exists token, r, ep, m, j, q. subst r. repeat split; assumption.
Qed.

(** X2: the hints agree with the requests.  A tool registered with
    [readOnlyHint] sends only GET requests, without a JSON body; every
    other tool sends POST or DELETE; a DELETE is sent only by the tool
    registered with [destructiveHint], delete-task, and only list-tasks
    sends query parameters. *)
Theorem hints_match_requests {RT : Runtime} (w : world) (c : tool_call)
    (req : request) :
  In req (snd (call_tool w c)) ->
  (readOnlyHint c = true ->
   req_method req = lit "GET" /\ req_json req = None)
  /\ (readOnlyHint c = false ->
      req_method req = lit "POST" \/ req_method req = lit "DELETE")
  /\ (req_method req = lit "DELETE" -> destructiveHint c = true)
  /\ (req_params req <> None -> exists p, c = ListTasks p).
Proof.
  intros Hin.
  destruct (call_tool_cases w c)
    as [[_ H]|[(_ & _ & H)|(ep & m & j & q & token & r & Ht & He & Hn & Hr & H)]];
    rewrite H in Hin; simpl in Hin; try contradiction.
  destruct Hin as [<-|[]]. subst r. cbn [the_request req_method req_json req_params].
  destruct c; cbn [tool_request] in Ht;
    try (destruct (update_task_data p); [discriminate|]);
    injection Ht as <- <- <- <-; cbn [readOnlyHint destructiveHint];
    repeat split; intros; try discriminate; try reflexivity;
    try (left; reflexivity); try (right; reflexivity);
    try congruence; try (eexists; reflexivity);
    try (exfalso; vm_compute in H0; discriminate).
Qed.

Lemma hints_match_requests_witness :
  (readOnlyHint (GetTask get_missing_task) = true
   /\ forall req,
       In req (snd (@call_tool sample_runtime not_found_world
                      (GetTask get_missing_task))) ->
       req_method req = lit "GET" /\ req_json req = None)
  /\ (exists req,
        snd (@call_tool sample_runtime no_content_world (DeleteTask delete_42))
        = [req]
        /\ req_method req = lit "DELETE"
        /\ destructiveHint (DeleteTask delete_42) = true).
Proof.
  split.
  - split; [reflexivity|]. intros req H.
    apply (@hints_match_requests sample_runtime not_found_world
             (GetTask get_missing_task) req H).
    reflexivity.
  - eexists. split; [reflexivity|]. split; [reflexivity|].
    apply (@hints_match_requests sample_runtime no_content_world
             (DeleteTask delete_42) (sample_request (lit "tasks/42")
                                       (lit "DELETE"))).
    + left. reflexivity.
    + reflexivity.
Defined.

(** ** Replies *)

(** X3: complete-task, reopen-task and delete-task look at nothing but
    the status of the reply.  When their request is answered with 204,
    or with another 2xx status and a body that decodes, they return the
    confirmation that names the id given by the caller, whatever the
    body holds; a 2xx status other than 204 with a body that is not JSON
    makes them return the error of the decoder although the server
    accepted the request. *)
Theorem id_tools_confirm {RT : Runtime} (w : world) (c : tool_call)
    (req : request) (status : Z) (decoded : result json) :
  snd (call_tool w c) = [req] ->
  send w req = Answer status decoded ->
  is_success status = true ->
  (status = 204%Z \/ (exists v, decoded = inr v) ->
   (forall p, c = CompleteTask p ->
      fst (call_tool w c)
      = CHECK_MARK ++ lit " Completed task (ID: `"
        ++ CompleteTaskInput.task_id p ++ lit "`)")
   /\ (forall p, c = ReopenTask p ->
         fst (call_tool w c)
         = CHECK_MARK ++ lit " Reopened task (ID: `"
           ++ ReopenTaskInput.task_id p ++ lit "`)")
   /\ (forall p, c = DeleteTask p ->
         fst (call_tool w c)
         = WASTEBASKET ++ lit " Deleted task (ID: `"
           ++ DeleteTaskInput.task_id p ++ lit "`)"))
  /\ (forall e, status <> 204%Z -> decoded = inl e ->
      fst (call_tool w c) = _handle_api_error e).
Proof.
  intros Hlog Hsend Hok.
  destruct (call_tool_sent w c Hlog)
    as (ep & m & j & q & token & _ & _ & _ & _ & ->).
  rewrite Hsend. unfold reply_result. rewrite Hok. cbn [negb].
  split.
  - intros Hbody.
    destruct (Z.eqb_spec status 204) as [E|E];
      [|destruct Hbody as [E'|[v ->]]; [contradiction|]];
      cbn [rbind];
      (repeat split; intros p ->; cbn [tool_render returned ok];
       unfold id_report; now rewrite <- !app_assoc).
  - intros e Hst ->. apply Z.eqb_neq in Hst. rewrite Hst. reflexivity.
Qed.

Lemma id_tools_confirm_witness :
  fst (@call_tool sample_runtime no_content_world (CompleteTask close_42))
  = CHECK_MARK ++ lit " Completed task (ID: `42`)"
  /\ fst (@call_tool sample_runtime ready_world (DeleteTask delete_42))
     = WASTEBASKET ++ lit " Deleted task (ID: `42`)"
  /\ fst (@call_tool sample_runtime not_json_world (ReopenTask reopen_42))
     = lit "Error: Expecting value: line 1 column 1 (char 0)".
Proof.
  split; [|split].
  - apply (proj1 (proj1 (@id_tools_confirm sample_runtime no_content_world
                    (CompleteTask close_42)
                    (sample_request (lit "tasks/42/close") (lit "POST"))
                    204 (inl EXPECTING_VALUE) eq_refl eq_refl eq_refl)
             (or_introl eq_refl)) close_42 eq_refl).
  - apply (proj2 (proj2 (proj1 (@id_tools_confirm sample_runtime ready_world
                    (DeleteTask delete_42)
                    (sample_request (lit "tasks/42") (lit "DELETE"))
                    200 (inr (JObj [])) eq_refl eq_refl eq_refl)
             (or_intror (ex_intro _ (JObj []) eq_refl)))) delete_42 eq_refl).
  - apply (proj2 (@id_tools_confirm sample_runtime not_json_world
                    (ReopenTask reopen_42)
                    (sample_request (lit "tasks/42/reopen") (lit "POST"))
                    200 (inl EXPECTING_VALUE) eq_refl eq_refl eq_refl)
             EXPECTING_VALUE).
    + discriminate.
    + reflexivity.
Defined.

(** X4: when the request of a tool is answered with a status outside
    200-299, the tool returns the message [_handle_api_error] has for
    that status, whatever the body of the answer: the body of a failed
    answer is never decoded. *)
Theorem bad_status_message {RT : Runtime} (w : world) (c : tool_call)
    (req : request) (status : Z) (decoded : result json) :
  snd (call_tool w c) = [req] ->
  send w req = Answer status decoded ->
  is_success status = false ->
  fst (call_tool w c) = _handle_api_error (HTTPStatusError status).
Proof.
  intros Hlog Hsend Hbad.
  destruct (call_tool_sent w c Hlog)
    as (ep & m & j & q & token & _ & _ & _ & _ & ->).
  rewrite Hsend. unfold reply_result. rewrite Hbad. reflexivity.
Qed.

Lemma bad_status_message_witness :
  fst (@call_tool sample_runtime not_found_world (GetTask get_missing_task))
  = lit "Error: Resource not found. Check the ID is correct.".
Proof.
  apply (@bad_status_message sample_runtime not_found_world
           (GetTask get_missing_task)
           (sample_request (lit "tasks/999999999") (lit "GET"))
           404 (inr (JObj []))); reflexivity.
Defined.

(** X5: when sending the request raises (a timeout, a connection
    error), the tool returns the message of that exception; for a
    timeout it is "Error: Request timed out. Please try again.".  The
    request is in the log: it was sent, and it is not sent again. *)
Theorem transport_failure_message {RT : Runtime} (w : world)
    (c : tool_call) (req : request) (e : exn) :
  snd (call_tool w c) = [req] ->
  send w req = Failure e ->
  call_tool w c = (_handle_api_error e, [req])
  /\ (e = TimeoutException ->
      fst (call_tool w c)
      = lit "Error: Request timed out. Please try again.").
Proof.
  intros Hlog Hsend.
  destruct (call_tool_sent w c Hlog)
    as (ep & m & j & q & token & _ & _ & _ & _ & Hfst).
  rewrite Hsend in Hfst. cbn [reply_result rbind returned] in Hfst.
  assert (H : call_tool w c = (_handle_api_error e, [req])).
  { destruct (call_tool w c) as [s l]. simpl in *. congruence. }
  split; [exact H|]. intros ->. now rewrite H.
Qed.

Lemma transport_failure_message_witness :
  @call_tool sample_runtime timeout_world (CreateTask create_both_dues)
  = (lit "Error: Request timed out. Please try again.",
     [the_request (lit "0123456789abcdef") (lit "tasks") (lit "POST")
        (Some (create_task_data create_both_dues)) None]).
Proof.
  apply (@transport_failure_message sample_runtime timeout_world
           (CreateTask create_both_dues)
           (the_request (lit "0123456789abcdef") (lit "tasks") (lit "POST")
              (Some (create_task_data create_both_dues)) None)
           TimeoutException); reflexivity.
Defined.

Lemma tool_body_answer {RT : Runtime} (w : world) (c : tool_call)
    (out : str) (log : list request) :
  tool_body w c [] = (inr out, log) ->
  (tool_request c = None /\ out = NOTHING_TO_UPDATE)
  \/ exists answer, tool_render c answer = ok out.
Proof.
  rewrite tool_body_run.
  destruct (tool_request c) as [[[[ep m] j] q]|].
  - destruct (_make_api_request w ep m j q []) as [[e|answer] log'];
      [discriminate|].
    intros H. right. exists answer. unfold ok. congruence.
  - intros H. left. split; [reflexivity | congruence].
Qed.

(** X6: in JSON mode the decoded answer goes to [json.dumps] as it is:
    get-project and get-task return [json.dumps] of whatever the server
    answered, list-projects and list-labels of any answer that is not
    empty.  The result is not passed to [_truncate_response]. *)
Theorem json_mode_passthrough {RT : Runtime} (w : world) (c : tool_call)
    (req : request) (status : Z) (answer : json) :
  snd (call_tool w c) = [req] ->
  send w req = Answer status (inr answer) ->
  is_success status = true ->
  status <> 204%Z ->
  (forall p, c = GetProject p ->
     GetProjectInput.response_format p = JSON ->
     fst (call_tool w c) = json_dumps answer)
  /\ (forall p, c = GetTask p ->
        GetTaskInput.response_format p = JSON ->
        fst (call_tool w c) = json_dumps answer)
  /\ (forall p, c = ListProjects p ->
        ListProjectsInput.response_format p = JSON ->
        truthy answer = true ->
        fst (call_tool w c) = json_dumps answer)
  /\ (forall p, c = ListLabels p ->
        ListLabelsInput.response_format p = JSON ->
        truthy answer = true ->
        fst (call_tool w c) = json_dumps answer).
Proof.
  intros Hlog Hsend Hok Hst.
  destruct (call_tool_sent w c Hlog)
    as (ep & m & j & q & token & _ & _ & _ & _ & ->).
  rewrite Hsend. unfold reply_result. rewrite Hok.
  apply Z.eqb_neq in Hst. rewrite Hst. cbn [negb rbind].
  repeat split; intros p ->; cbn [tool_render].
  - intros ->. reflexivity.
  - intros ->. reflexivity.
  - intros -> ->. reflexivity.
  - intros -> ->. reflexivity.
Qed.

Lemma json_mode_passthrough_witness :
  fst (@call_tool sample_runtime many_projects_world
         (ListProjects list_projects_json))
  = @json_dumps sample_runtime (JArr (repeat sample_project 1000)).
Proof.
  apply (proj1 (proj2 (proj2
           (@json_mode_passthrough sample_runtime many_projects_world
              (ListProjects list_projects_json)
              (sample_request (lit "projects") (lit "GET"))
              200 (JArr (repeat sample_project 1000))
              eq_refl eq_refl eq_refl ltac:(discriminate))))
           list_projects_json eq_refl eq_refl eq_refl).
Defined.

(** X7: an answer that is empty (an empty list, [null], or no content
    at all with status 204) makes the three list tools return their
    fixed sentence, in markdown and in JSON mode alike. *)
Theorem empty_listing_sentence {RT : Runtime} (w : world) (c : tool_call)
    (req : request) (status : Z) (decoded : result json) :
  snd (call_tool w c) = [req] ->
  send w req = Answer status decoded ->
  is_success status = true ->
  status = 204%Z \/ (exists a, decoded = inr a /\ truthy a = false) ->
  (forall p, c = ListProjects p ->
     fst (call_tool w c) = lit "No projects found.")
  /\ (forall p, c = ListTasks p ->
        fst (call_tool w c) = lit "No tasks found matching your criteria.")
  /\ (forall p, c = ListLabels p ->
        fst (call_tool w c)
        = lit "No labels found. Create labels to organize your tasks.").
Proof.
  intros Hlog Hsend Hok Hempty.
  destruct (call_tool_sent w c Hlog)
    as (ep & m & j & q & token & _ & _ & _ & _ & ->).
  rewrite Hsend. unfold reply_result. rewrite Hok. cbn [negb].
  assert (Hans : exists a,
             rbind (if (status =? 204)%Z then inr JNull else decoded)
               (tool_render c)
             = tool_render c a /\ truthy a = false).
  { destruct (Z.eqb_spec status 204) as [E|E].
    - exists JNull. split; reflexivity.
    - destruct Hempty as [E'|(a & -> & Ha)]; [contradiction|].
      exists a. split; [reflexivity | exact Ha]. }
  destruct Hans as (a & -> & Ha).
  repeat split; intros p ->; cbn [tool_render]; unfold list_tasks_view;
    rewrite Ha; reflexivity.
Qed.

Lemma empty_listing_sentence_witness :
  fst (@call_tool sample_runtime empty_list_world
         (ListProjects list_projects_json))
  = lit "No projects found."
  /\ fst (@call_tool sample_runtime no_content_world
            (ListLabels list_labels_json))
     = lit "No labels found. Create labels to organize your tasks.".
Proof.
  split.
  - apply (proj1 (@empty_listing_sentence sample_runtime empty_list_world
                    (ListProjects list_projects_json)
                    (sample_request (lit "projects") (lit "GET"))
                    200 (inr (JArr [])) eq_refl eq_refl eq_refl
                    (or_intror (ex_intro _ (JArr []) (conj eq_refl eq_refl))))
             list_projects_json eq_refl).
  - apply (proj2 (proj2 (@empty_listing_sentence sample_runtime
                    no_content_world (ListLabels list_labels_json)
                    (sample_request (lit "labels") (lit "GET"))
                    204 (inl EXPECTING_VALUE) eq_refl eq_refl eq_refl
                    (or_introl eq_refl)))
             list_labels_json eq_refl).
Defined.

(** ** Size of the list views *)

Lemma for_each_head_fails {A B} (f : A -> result (list B)) (x : A)
    (rest : list A) (e : exn) :
  f x = inl e -> for_each f (x :: rest) = inl e.
Proof. intros H. simpl. now rewrite H. Qed.

Lemma list_tasks_view_capped {RT : Runtime} (p : ListTasksInput.t)
    (tasks : json) (out : str) :
  (1 <= ListTasksInput.limit p <= 200)%Z ->
  ListTasksInput.response_format p = MARKDOWN ->
  list_tasks_view p tasks = ok out ->
  (len out <= CHARACTER_LIMIT)%Z.
Proof.
  intros Hlim Hfmt. unfold list_tasks_view.
  destruct (truthy tasks) eqn:Ht; cbn [negb].
  - rewrite Hfmt.
    destruct tasks as [| | |s|l|d]; cbn [py_slice_to rbind ok];
      try discriminate.
    + (* a string: its first character is not a task *)
      rewrite slice_to_firstn by lia.
      destruct s as [|ch s]; [discriminate|].
      destruct (Z.to_nat (ListTasksInput.limit p)) eqn:E; [lia|].
      cbn [firstn]. unfold render_tasks.
      cbn [py_len py_iter rbind ok map].
      rewrite (@for_each_head_fails _ _ task_lines (JStr [ch])
                 (map (fun c => JStr [c]) (firstn n s))
                 (py_fault OpGet (JStr [ch])) eq_refl).
      discriminate.
    + apply render_tasks_capped.
      rewrite slice_to_firstn by lia. rewrite length_firstn. lia.
  - intros H. unfold ok in H. injection H as <-.
    vm_compute. discriminate.
Qed.

(** X8: whenever list-tasks, called in markdown mode with a limit
    between 1 and 200, returns normally (its body raises nothing), the
    string it returns has at most 25,000 characters. *)
Theorem list_tasks_output_capped {RT : Runtime} (w : world)
    (p : ListTasksInput.t) (out : str) (log : list request) :
  (1 <= ListTasksInput.limit p <= 200)%Z ->
  ListTasksInput.response_format p = MARKDOWN ->
  tool_body w (ListTasks p) [] = (inr out, log) ->
  call_tool w (ListTasks p) = (out, log)
  /\ (len out <= CHARACTER_LIMIT)%Z.
Proof.
  intros Hlim Hfmt Hbody. split.
  - rewrite call_tool_handled. unfold handled. now rewrite Hbody.
  - destruct (tool_body_answer w (ListTasks p) Hbody)
      as [[Hnone _]|[answer Hans]]; [discriminate|].
    exact (list_tasks_view_capped p answer Hlim Hfmt Hans).
Qed.

Lemma list_tasks_output_capped_witness :
  exists out log,
    @call_tool sample_runtime tasks_world (ListTasks list_two) = (out, log)
    /\ (len out <= CHARACTER_LIMIT)%Z.
Proof.
  eexists. eexists.
  apply (@list_tasks_output_capped sample_runtime tasks_world list_two).
  - vm_compute. split; discriminate.
  - reflexivity.
  - vm_compute. reflexivity.
Defined.

(** A result that is a value is the value it holds. *)
Lemma result_value (r : result str) :
  match r with inr _ => true | inl _ => false end = true ->
  r = ok (match r with inr out => out | inl _ => [] end).
Proof. destruct r; [discriminate | reflexivity]. Qed.

(** X9: when list-projects, in markdown mode, is answered a non-empty
    list that it can render, the string it returns is the listing
    itself if the listing has at most 25,000 characters, and otherwise
    the first 24,800 characters of the listing followed by the notice
    that names the number of projects answered. *)
Theorem list_projects_output_shape {RT : Runtime} (w : world)
    (p : ListProjectsInput.t) (req : request) (status : Z)
    (l : list json) (out : str) :
  snd (call_tool w (ListProjects p)) = [req] ->
  send w req = Answer status (inr (JArr l)) ->
  is_success status = true ->
  status <> 204%Z ->
  ListProjectsInput.response_format p = MARKDOWN ->
  l <> [] ->
  render_projects (JArr l) = ok out ->
  fst (call_tool w (ListProjects p)) = out
  /\ exists lines,
      for_each project_lines l = ok lines
      /\ ((len (join NL ([lit "# Todoist Projects"; []] ++ lines))
           <= CHARACTER_LIMIT)%Z
          /\ out = join NL ([lit "# Todoist Projects"; []] ++ lines)
          \/ (CHARACTER_LIMIT
              < len (join NL ([lit "# Todoist Projects"; []] ++ lines)))%Z
             /\ out
                = slice_to (join NL ([lit "# Todoist Projects"; []] ++ lines))
                    24800
                  ++ CHARACTER_NOTICE (Z.of_nat (length l))
             /\ len (slice_to
                       (join NL ([lit "# Todoist Projects"; []] ++ lines))
                       24800) = 24800%Z).
Proof.
  intros Hlog Hsend Hok Hst Hfmt Hne Hrender.
  destruct (call_tool_sent w (ListProjects p) Hlog)
    as (ep & m & j & q & token & _ & _ & _ & _ & Hfst).
  rewrite Hsend in Hfst. unfold reply_result in Hfst. rewrite Hok in Hfst.
  apply Z.eqb_neq in Hst. rewrite Hst in Hfst.
  cbn [negb rbind tool_render] in Hfst.
  assert (Ht : truthy (JArr l) = true) by (destruct l; [congruence | reflexivity]).
  rewrite Ht, Hfmt in Hfst. cbn [negb] in Hfst.
  unfold ok in Hrender. rewrite Hrender in Hfst. cbn [returned] in Hfst.
  split; [exact Hfst|]. clear Hfst.
  unfold render_projects in Hrender. cbn [py_iter py_len rbind ok] in Hrender.
  destruct (for_each project_lines l) as [e|lines] eqn:E; [discriminate|].
  cbn [rbind] in Hrender. unfold ok in Hrender.
  assert (Hout : out = _truncate_response
                         (join NL ([lit "# Todoist Projects"; []] ++ lines))
                         (Z.of_nat (length l))) by congruence.
  exists lines. split; [reflexivity|].
  destruct (Z.le_gt_cases
              (len (join NL ([lit "# Todoist Projects"; []] ++ lines)))
              CHARACTER_LIMIT) as [Hs|Hl].
  - left. split; [exact Hs|]. now rewrite Hout, truncate_short.
  - right. split; [exact Hl|]. split.
    + now rewrite Hout, truncate_long.
    + apply len_slice_to. unfold CHARACTER_LIMIT in Hl. lia.
Qed.

Lemma list_projects_output_shape_witness :
  @render_projects sample_runtime (JArr many_projects)
  = ok many_projects_listing
  /\ len many_projects_listing = 24873%Z
  /\ endswith (CHARACTER_NOTICE 1000) many_projects_listing = true
  /\ (fst (@call_tool sample_runtime many_projects_world
             (ListProjects list_projects_markdown)) = many_projects_listing
      /\ exists lines,
          @for_each _ _ (@project_lines sample_runtime) many_projects
          = ok lines
          /\ ((len (join NL ([lit "# Todoist Projects"; []] ++ lines))
               <= CHARACTER_LIMIT)%Z
              /\ many_projects_listing
                 = join NL ([lit "# Todoist Projects"; []] ++ lines)
              \/ (CHARACTER_LIMIT
                  < len (join NL ([lit "# Todoist Projects"; []] ++ lines)))%Z
                 /\ many_projects_listing
                    = slice_to
                        (join NL ([lit "# Todoist Projects"; []] ++ lines))
                        24800
                      ++ CHARACTER_NOTICE (Z.of_nat (length many_projects))
                 /\ len (slice_to
                           (join NL ([lit "# Todoist Projects"; []] ++ lines))
                           24800) = 24800%Z)).
Proof.
  assert (Hr : @render_projects sample_runtime (JArr many_projects)
               = ok many_projects_listing)
    by (apply result_value; vm_compute; reflexivity).
  split; [exact Hr|].
  split; [vm_compute; reflexivity|].
  split; [vm_compute; reflexivity|].
  apply (@list_projects_output_shape sample_runtime many_projects_world
           list_projects_markdown
           (sample_request (lit "projects") (lit "GET")) 200 many_projects
           many_projects_listing).
  - vm_compute. reflexivity.
  - reflexivity.
  - reflexivity.
  - discriminate.
  - reflexivity.
  - discriminate.
  - exact Hr.
Defined.

Lemma call_tool_request {RT : Runtime} (w : world) (c : tool_call)
    (req : request) :
  In req (snd (call_tool w c)) ->
  exists endpoint method json_data params,
    tool_request c = Some (endpoint, method, json_data, params)
    /\ req_method req = method
    /\ req_url req = API_BASE_URL ++ lit "/" ++ endpoint
    /\ req_json req = json_data
    /\ req_params req = params.
Proof.
  intros Hin.
  destruct (call_tool_cases w c)
    as [[_ H]|[(_ & _ & H)|(ep & m & j & q & token & r & Ht & _ & _ & Hr & H)]];
    rewrite H in Hin; simpl in Hin; try contradiction.
  destruct Hin as [<-|[]]. subst r.
  exists ep, m, j, q. repeat split. exact Ht.
Qed.

(** ** Request bodies and queries of the other tools *)



(** X11: a request of create-task is a POST to [tasks] whose body
    always holds the content; the body holds the priority as its
    integer value; and it leaves out an empty description and an empty
    list of labels, which the body of update-task keeps (as the empty
    string and the empty list). *)
Theorem create_task_body_fields {RT : Runtime} (w : world)
    (c : CreateTaskInput.t) (u : UpdateTaskInput.t) :
  (forall req, In req (snd (call_tool w (CreateTask c))) ->
     req_method req = lit "POST"
     /\ req_url req = API_BASE_URL ++ lit "/tasks"
     /\ req_json req = Some (create_task_data c))
  /\ lookup (lit "content") (create_task_data c)
     = Some (JStr (CreateTaskInput.content c))
  /\ (forall pr, CreateTaskInput.priority c = Some pr ->
        lookup (lit "priority") (create_task_data c)
        = Some (JNum (priority_value pr)))
  /\ (CreateTaskInput.description c = Some [] ->
      lookup (lit "description") (create_task_data c) = None)
  /\ (CreateTaskInput.labels c = Some [] ->
      lookup (lit "labels") (create_task_data c) = None)
  /\ (UpdateTaskInput.description u = Some [] ->
      lookup (lit "description") (update_task_data u) = Some (JStr []))
  /\ (UpdateTaskInput.labels u = Some [] ->
      lookup (lit "labels") (update_task_data u) = Some (JArr [])).
Proof.
  split; [|split; [|split; [|split; [|split; [|split]]]]].
  - intros req Hin.
    destruct (call_tool_request w (CreateTask c) req Hin)
      as (ep & m & j & q & Ht & Hm & Hu & Hj & _).
    cbn [tool_request] in Ht. injection Ht as <- <- <- _.
    repeat split; assumption.
  - unfold create_task_data. lookup_body. reflexivity.
  - intros pr H. unfold create_task_data. lookup_body. rewrite H.
    now destruct pr.
  - intros H. unfold create_task_data. lookup_body. rewrite H. reflexivity.
  - intros H. unfold create_task_data. lookup_body. rewrite H. reflexivity.
  - intros H. unfold update_task_data. lookup_body. rewrite H. reflexivity.
  - intros H. unfold update_task_data. lookup_body. rewrite H. reflexivity.
Qed.

Lemma create_task_body_fields_witness :
  (exists req,
      snd (@call_tool sample_runtime ready_world
             (CreateTask create_empty_extras)) = [req]
      /\ req_json req
         = Some [(lit "content", JStr (lit "Buy milk"));
                 (lit "priority", JNum 3)])
  /\ lookup (lit "description") (create_task_data create_empty_extras) = None
  /\ lookup (lit "labels") (create_task_data create_empty_extras) = None
  /\ lookup (lit "priority") (create_task_data create_empty_extras)
     = Some (JNum 3)
  /\ lookup (lit "description") (update_task_data update_empty_extras)
     = Some (JStr [])
  /\ lookup (lit "labels") (update_task_data update_empty_extras)
     = Some (JArr []).
Proof.
  pose proof (@create_task_body_fields sample_runtime ready_world
                create_empty_extras update_empty_extras)
    as (Hreq & _ & Hpr & Hd & Hl & Hud & Hul).
  split; [|split; [|split; [|split; [|split]]]].
  - eexists. split; [reflexivity|].
    apply Hreq. left. reflexivity.
  - apply Hd. reflexivity.
  - apply Hl. reflexivity.
  - apply (Hpr P3). reflexivity.
  - apply Hud. reflexivity.
  - apply Hul. reflexivity.
Defined.

(** X12: a request of create-project or create-label is a POST whose
    body always holds the name; [is_favorite] is in the body only when
    it is true, so "not a favourite" is never sent, and an empty colour
    or parent id is left out. *)
Theorem create_project_label_bodies {RT : Runtime} (w : world)
    (p : CreateProjectInput.t) (l : CreateLabelInput.t) :
  (forall req, In req (snd (call_tool w (CreateProject p))) ->
     req_method req = lit "POST"
     /\ req_url req = API_BASE_URL ++ lit "/projects"
     /\ exists body,
         req_json req = Some body
         /\ lookup (lit "name") body
            = Some (JStr (CreateProjectInput.name p))
         /\ lookup (lit "is_favorite") body
            = (if CreateProjectInput.is_favorite p
               then Some (JBool true) else None)
         /\ lookup (lit "color") body
            = (if some_text (CreateProjectInput.color p)
               then Some (opt_str (CreateProjectInput.color p)) else None)
         /\ lookup (lit "parent_id") body
            = (if some_text (CreateProjectInput.parent_id p)
               then Some (opt_str (CreateProjectInput.parent_id p))
               else None))
  /\ (forall req, In req (snd (call_tool w (CreateLabel l))) ->
        req_method req = lit "POST"
        /\ req_url req = API_BASE_URL ++ lit "/labels"
        /\ exists body,
            req_json req = Some body
            /\ lookup (lit "name") body
               = Some (JStr (CreateLabelInput.name l))
            /\ lookup (lit "is_favorite") body
               = (if CreateLabelInput.is_favorite l
                  then Some (JBool true) else None)
            /\ lookup (lit "color") body
               = (if some_text (CreateLabelInput.color l)
                  then Some (opt_str (CreateLabelInput.color l)) else None)).
Proof.
  split; intros req Hin.
  - destruct (call_tool_request w (CreateProject p) req Hin)
      as (ep & m & j & q & Ht & Hm & Hu & Hj & _).
    cbn [tool_request] in Ht. injection Ht as <- <- <- _.
    split; [exact Hm|]. split; [exact Hu|].
    exists (create_project_data p). split; [exact Hj|]. repeat split.
    + unfold create_project_data. lookup_body. reflexivity.
    + unfold create_project_data. lookup_body.
      now destruct (CreateProjectInput.is_favorite p).
    + unfold create_project_data. lookup_body.
      now destruct (some_text (CreateProjectInput.color p)).
    + unfold create_project_data. lookup_body.
      now destruct (some_text (CreateProjectInput.parent_id p)).
  - destruct (call_tool_request w (CreateLabel l) req Hin)
      as (ep & m & j & q & Ht & Hm & Hu & Hj & _).
    cbn [tool_request] in Ht. injection Ht as <- <- <- _.
    split; [exact Hm|]. split; [exact Hu|].
    exists (create_label_data l). split; [exact Hj|]. repeat split.
    + unfold create_label_data. lookup_body. reflexivity.
    + unfold create_label_data. lookup_body.
      now destruct (CreateLabelInput.is_favorite l).
    + unfold create_label_data. lookup_body.
      now destruct (some_text (CreateLabelInput.color l)).
Qed.

Lemma create_project_label_bodies_witness :
  (exists req,
      snd (@call_tool sample_runtime ready_world (CreateProject plain_project))
      = [req]
      /\ req_json req = Some [(lit "name", JStr (lit "Home"))])
  /\ (exists req,
        snd (@call_tool sample_runtime ready_world (CreateLabel favorite_label))
        = [req]
        /\ exists body,
            req_json req = Some body
            /\ lookup (lit "is_favorite") body = Some (JBool true)
            /\ lookup (lit "color") body = Some (JStr (lit "red"))).
Proof.
  split.
  - eexists. split; reflexivity.
  - eexists. split; [reflexivity|].
    destruct (proj2 (@create_project_label_bodies sample_runtime ready_world
                       plain_project favorite_label) _
                (or_introl eq_refl))
      as (_ & _ & body & Hb & _ & Hf & Hc).
    exists body. split; [exact Hb|]. split; [exact Hf | exact Hc].
Defined.

(** ** Validation of the task inputs *)

Lemma validate_create_fields {RT : Runtime} (r : CreateTaskInput.raw)
    (p : CreateTaskInput.t) :
  CreateTaskInput.validate r = Some p ->
  CreateTaskInput.content p = strip (CreateTaskInput.raw_content r)
  /\ CreateTaskInput.due_date p
     = option_map strip (CreateTaskInput.raw_due_date r)
  /\ CreateTaskInput.priority p
     = match CreateTaskInput.raw_priority r with
       | Some n => to_priority n
       | None => None
       end
  /\ min_length 1 (CreateTaskInput.content p) = true
  /\ max_length 5000 (CreateTaskInput.content p) = true
  /\ CreateTaskInput.validate_due_date (CreateTaskInput.due_date p) = true.
Proof.
  unfold CreateTaskInput.validate.
  destruct (_ && _ && _ && _) eqn:E; [|discriminate].
  apply andb_true_iff in E as [E Hdd].
  apply andb_true_iff in E as [E Hdesc].
  apply andb_true_iff in E as [Hmin Hmax].
  destruct (CreateTaskInput.raw_priority r) as [n|].
  - destruct (to_priority n) eqn:Hp; [|discriminate].
    intros H. injection H as <-. cbn. repeat split; assumption.
  - intros H. injection H as <-. cbn. repeat split; assumption.
Qed.

Lemma validate_update_fields {RT : Runtime} (r : UpdateTaskInput.raw)
    (p : UpdateTaskInput.t) :
  UpdateTaskInput.validate r = Some p ->
  UpdateTaskInput.task_id p = strip (UpdateTaskInput.raw_task_id r)
  /\ UpdateTaskInput.due_date p
     = option_map strip (UpdateTaskInput.raw_due_date r)
  /\ UpdateTaskInput.priority p
     = match UpdateTaskInput.raw_priority r with
       | Some n => to_priority n
       | None => None
       end
  /\ min_length 1 (UpdateTaskInput.task_id p) = true.
Proof.
  unfold UpdateTaskInput.validate.
  destruct (_ && _ && _) eqn:E; [|discriminate].
  apply andb_true_iff in E as [E Hdesc].
  apply andb_true_iff in E as [Hmin Hmax].
  destruct (UpdateTaskInput.raw_priority r) as [n|].
  - destruct (to_priority n) eqn:Hp; [|discriminate].
    intros H. injection H as <-. cbn. repeat split; assumption.
  - intros H. injection H as <-. cbn. repeat split; assumption.
Qed.

Lemma to_priority_value (n : Z) (pr : TaskPriority) :
  to_priority n = Some pr -> priority_value pr = n /\ (1 <= n <= 4)%Z.
Proof.
  unfold to_priority.
  destruct (Z.eqb_spec n 1) as [->|_]; [intros H; injection H as <-; cbn; lia|].
  destruct (Z.eqb_spec n 2) as [->|_]; [intros H; injection H as <-; cbn; lia|].
  destruct (Z.eqb_spec n 3) as [->|_]; [intros H; injection H as <-; cbn; lia|].
  destruct (Z.eqb_spec n 4) as [->|_]; [intros H; injection H as <-; cbn; lia|].
  discriminate.
Qed.

Lemma to_priority_outside (n : Z) :
  (n < 1 \/ 4 < n)%Z -> to_priority n = None.
Proof.
  intros H. unfold to_priority.
  destruct (Z.eqb_spec n 1); [lia|]. destruct (Z.eqb_spec n 2); [lia|].
  destruct (Z.eqb_spec n 3); [lia|]. destruct (Z.eqb_spec n 4); [lia|].
  reflexivity.
Qed.

(** X13: the format of [due_date] is checked for create-task only.  A
    validated create-task input has a [due_date] that is absent, empty,
    or accepted by [strptime], and a non-empty one that [strptime]
    rejects is refused.  update-task has no such validator: whether its
    input is accepted does not depend on [due_date], and a non-empty
    [due_date] goes into the request body as given whenever no
    [due_string] takes its place. *)
Theorem due_date_checked_on_create_only {RT : Runtime} :
  (forall r p v,
      CreateTaskInput.validate r = Some p ->
      CreateTaskInput.due_date p = Some v ->
      v <> [] ->
      strptime_ymd v = true)
  /\ (forall r v,
        CreateTaskInput.raw_due_date r = Some v ->
        strip v <> [] ->
        strptime_ymd (strip v) = false ->
        CreateTaskInput.validate r = None)
  /\ (forall r p d,
        UpdateTaskInput.validate r = Some p ->
        exists p',
          UpdateTaskInput.validate (with_raw_due_date r d) = Some p'
          /\ UpdateTaskInput.due_date p' = option_map strip d)
  /\ (forall p v,
        UpdateTaskInput.due_date p = Some v ->
        v <> [] ->
        some_text (UpdateTaskInput.due_string p) = false ->
        lookup (lit "due_date") (update_task_data p) = Some (JStr v)).
Proof.
  split; [|split; [|split]].
  - intros r p v Hv Hd Hne.
    destruct (validate_create_fields r Hv) as (_ & _ & _ & _ & _ & Hdd).
    rewrite Hd in Hdd. unfold CreateTaskInput.validate_due_date in Hdd.
    destruct v; [congruence|]. exact Hdd.
  - intros r v Hraw Hne Hbad.
    destruct (CreateTaskInput.validate r) as [p|] eqn:Hv; [|reflexivity].
    destruct (validate_create_fields r Hv) as (_ & Hd & _ & _ & _ & Hdd).
    rewrite Hd, Hraw in Hdd. cbn [option_map] in Hdd.
    unfold CreateTaskInput.validate_due_date in Hdd.
    destruct (strip v) eqn:E; [congruence|].
    cbn [some_text check_opt] in Hdd. congruence.
  - intros r p d. unfold UpdateTaskInput.validate.
    cbn [with_raw_due_date UpdateTaskInput.raw_task_id
           UpdateTaskInput.raw_content UpdateTaskInput.raw_description
           UpdateTaskInput.raw_due_string UpdateTaskInput.raw_due_date
           UpdateTaskInput.raw_priority UpdateTaskInput.raw_labels].
    destruct (_ && _ && _); [|discriminate].
    destruct (UpdateTaskInput.raw_priority r) as [n|].
    + destruct (to_priority n); [|discriminate].
      intros _. eexists. split; reflexivity.
    + intros _. eexists. split; reflexivity.
  - intros p v Hd Hne Hs. unfold update_task_data. lookup_body.
    rewrite Hs, Hd. destruct v; [congruence|]. reflexivity.
Qed.

Lemma due_date_checked_on_create_only_witness :
  CreateTaskInput.validate (RT := sample_runtime)
    (create_raw (lit "Buy milk") (Some (lit "next week")) None) = None
  /\ (exists p,
        CreateTaskInput.validate (RT := sample_runtime)
          (create_raw (lit "Buy milk") (Some (lit "2024-01-15")) None)
        = Some p
        /\ @strptime_ymd sample_runtime (lit "2024-01-15") = true)
  /\ (exists p',
        UpdateTaskInput.validate (RT := sample_runtime)
          (with_raw_due_date (update_raw (lit "42") None None)
             (Some (lit "next week"))) = Some p'
        /\ UpdateTaskInput.due_date p' = Some (lit "next week")
        /\ lookup (lit "due_date") (update_task_data p')
           = Some (JStr (lit "next week"))).
Proof.
  split; [|split].
  - apply (proj1 (proj2 (@due_date_checked_on_create_only sample_runtime))
             _ (lit "next week")).
    + reflexivity.
    + vm_compute. discriminate.
    + reflexivity.
  - eexists. split; [reflexivity|].
    eapply (proj1 (@due_date_checked_on_create_only sample_runtime)
              (create_raw (lit "Buy milk") (Some (lit "2024-01-15")) None)).
    + reflexivity.
    + reflexivity.
    + discriminate.
  - destruct (proj1 (proj2 (proj2
               (@due_date_checked_on_create_only sample_runtime)))
               (update_raw (lit "42") None None) _
               (Some (lit "next week")) eq_refl) as (p' & Hv & Hd).
    exists p'. split; [exact Hv|]. split; [exact Hd|].
    apply (proj2 (proj2 (proj2
             (@due_date_checked_on_create_only sample_runtime)))
             p' (lit "next week") Hd).
    + discriminate.
    + vm_compute in Hv. injection Hv as <-. reflexivity.
Defined.

(** X14: validation strips before it measures.  A create-task content
    made of white space only is refused, and so is an update-task id
    made of white space only; the content of an accepted create-task
    input is the given content stripped, between 1 and 5000 characters
    long, and the id of an accepted update is the given id stripped and
    not empty. *)
Theorem blank_required_fields_refused {RT : Runtime} :
  (forall r,
      forallb is_space (CreateTaskInput.raw_content r) = true ->
      CreateTaskInput.validate r = None)
  /\ (forall r,
        forallb is_space (UpdateTaskInput.raw_task_id r) = true ->
        UpdateTaskInput.validate r = None)
  /\ (forall r p,
        CreateTaskInput.validate r = Some p ->
        CreateTaskInput.content p = strip (CreateTaskInput.raw_content r)
        /\ (1 <= len (CreateTaskInput.content p) <= 5000)%Z)
  /\ (forall r p,
        UpdateTaskInput.validate r = Some p ->
        UpdateTaskInput.task_id p = strip (UpdateTaskInput.raw_task_id r)
        /\ (1 <= len (UpdateTaskInput.task_id p))%Z).
Proof.
  split; [|split; [|split]].
  - intros r Hb. unfold CreateTaskInput.validate.
    rewrite (strip_blank _ Hb). reflexivity.
  - intros r Hb. unfold UpdateTaskInput.validate.
    rewrite (strip_blank _ Hb). reflexivity.
  - intros r p Hv.
    destruct (validate_create_fields r Hv) as (Hc & _ & _ & Hmin & Hmax & _).
    split; [exact Hc|].
    unfold min_length, max_length in *.
    apply Z.leb_le in Hmin, Hmax. lia.
  - intros r p Hv.
    destruct (validate_update_fields r Hv) as (Hi & _ & _ & Hmin).
    split; [exact Hi|].
    unfold min_length in Hmin. now apply Z.leb_le in Hmin.
Qed.

Lemma blank_required_fields_refused_witness :
  CreateTaskInput.validate (RT := sample_runtime)
    (create_raw (lit "   ") None None) = None
  /\ UpdateTaskInput.validate (RT := sample_runtime)
       (update_raw (lit "  ") None None) = None
  /\ (exists p,
        CreateTaskInput.validate (RT := sample_runtime)
          (create_raw (lit "  Buy milk ") None None) = Some p
        /\ CreateTaskInput.content p = lit "Buy milk").
Proof.
  split; [|split].
  - apply (proj1 (@blank_required_fields_refused sample_runtime)).
    reflexivity.
  - apply (proj1 (proj2 (@blank_required_fields_refused sample_runtime))).
    reflexivity.
  - eexists. split; [reflexivity|].
    apply (proj1 (proj2 (proj2 (@blank_required_fields_refused
                                  sample_runtime)))
             (create_raw (lit "  Buy milk ") None None) _ eq_refl).
Defined.

(** X15: a priority is accepted only between 1 and 4, and an accepted
    one comes back as the same integer in the request body, for
    create-task and for update-task. *)
Theorem priority_round_trip {RT : Runtime} (n : Z) :
  (forall r p,
      CreateTaskInput.validate r = Some p ->
      CreateTaskInput.raw_priority r = Some n ->
      (1 <= n <= 4)%Z
      /\ lookup (lit "priority") (create_task_data p) = Some (JNum n))
  /\ (forall r p,
        UpdateTaskInput.validate r = Some p ->
        UpdateTaskInput.raw_priority r = Some n ->
        (1 <= n <= 4)%Z
        /\ lookup (lit "priority") (update_task_data p) = Some (JNum n))
  /\ ((n < 1 \/ 4 < n)%Z ->
      (forall r, CreateTaskInput.raw_priority r = Some n ->
                 CreateTaskInput.validate r = None)
      /\ (forall r, UpdateTaskInput.raw_priority r = Some n ->
                    UpdateTaskInput.validate r = None)).
Proof.
  split; [|split].
  - intros r p Hv Hn.
    destruct (validate_create_fields r Hv) as (_ & _ & Hp & _).
    rewrite Hn in Hp.
    destruct (to_priority n) as [pr|] eqn:E.
    + destruct (to_priority_value n E) as [Hval Hr]. split; [exact Hr|].
      unfold create_task_data. lookup_body. rewrite Hp.
      cbn [some_priority opt_priority]. rewrite Hval.
      destruct (Z.eqb_spec n 0); [lia | reflexivity].
    + exfalso. revert Hv. unfold CreateTaskInput.validate.
      rewrite Hn, E. now destruct (_ && _ && _ && _).
  - intros r p Hv Hn.
    destruct (validate_update_fields r Hv) as (_ & _ & Hp & _).
    rewrite Hn in Hp.
    destruct (to_priority n) as [pr|] eqn:E.
    + destruct (to_priority_value n E) as [Hval Hr]. split; [exact Hr|].
      unfold update_task_data. lookup_body. rewrite Hp.
      cbn [some_priority opt_priority]. rewrite Hval.
      destruct (Z.eqb_spec n 0); [lia|].
      now destruct (is_not_None (UpdateTaskInput.labels p)).
    + exfalso. revert Hv. unfold UpdateTaskInput.validate.
      rewrite Hn, E. now destruct (_ && _ && _).
  - intros Hout. pose proof (@to_priority_outside n Hout) as E.
    split; intros r Hn.
    + unfold CreateTaskInput.validate. rewrite Hn, E.
      now destruct (_ && _ && _ && _).
    + unfold UpdateTaskInput.validate. rewrite Hn, E.
      now destruct (_ && _ && _).
Qed.

Lemma priority_round_trip_witness :
  (exists p,
      CreateTaskInput.validate (RT := sample_runtime)
        (create_raw (lit "Buy milk") None (Some 4%Z)) = Some p
      /\ lookup (lit "priority") (create_task_data p) = Some (JNum 4))
  /\ CreateTaskInput.validate (RT := sample_runtime)
       (create_raw (lit "Buy milk") None (Some 5%Z)) = None
  /\ UpdateTaskInput.validate (RT := sample_runtime)
       (update_raw (lit "42") None (Some 0%Z)) = None.
Proof.
  split; [|split].
  - eexists. split; [reflexivity|].
    apply (proj1 (@priority_round_trip sample_runtime 4)
             (create_raw (lit "Buy milk") None (Some 4%Z)) _
             eq_refl eq_refl).
  - apply (proj1 (proj2 (proj2 (@priority_round_trip sample_runtime 5))
                    ltac:(right; reflexivity))
             (create_raw (lit "Buy milk") None (Some 5%Z)) eq_refl).
  - apply (proj2 (proj2 (proj2 (@priority_round_trip sample_runtime 0))
                    ltac:(left; reflexivity))
             (update_raw (lit "42") None (Some 0%Z)) eq_refl).
Defined.

(** ** Listings and malformed items *)

Lemma for_each_ok_all {A B} (f : A -> result (list B)) (l : list A)
    (ys : list B) :
  for_each f l = inr ys ->
  forall x, In x l -> exists y, f x = inr y.
Proof.
  revert ys. induction l as [|a l IH]; intros ys H x Hin; [destruct Hin|].
  simpl in H. destruct (f a) as [e|y] eqn:Ha; [discriminate|].
  destruct (for_each f l) as [e|zs] eqn:Hl; [discriminate|].
  destruct Hin as [<-|Hin]; [now exists y|].
  exact (IH zs eq_refl x Hin).
Qed.

Lemma project_lines_ok {RT : Runtime} (item : json) (ys : list str) :
  project_lines item = inr ys ->
  exists d i, item = JObj d /\ lookup (lit "id") d = Some i.
Proof.
  unfold project_lines.
  destruct item as [| | | |l|d]; try discriminate.
  cbn [py_get rbind ok py_subscript].
  destruct (lookup (lit "name") d); [|discriminate].
  cbn [rbind ok].
  destruct (lookup (lit "id") d) as [i|] eqn:Hi; [|discriminate].
  intros _. now exists d, i.
Qed.

Lemma label_line_ok {RT : Runtime} (item : json) (ys : list str) :
  label_line item = inr ys ->
  exists d i, item = JObj d /\ lookup (lit "id") d = Some i.
Proof.
  unfold label_line.
  destruct item as [| | | |l|d]; try discriminate.
  cbn [py_get rbind ok py_subscript].
  destruct (lookup (lit "name") d); [|discriminate].
  cbn [rbind ok].
  destruct (lookup (lit "id") d) as [i|] eqn:Hi; [|discriminate].
  intros _. now exists d, i.
Qed.

Lemma task_lines_ok {RT : Runtime} (item : json) (ys : list str) :
  task_lines item = inr ys ->
  exists d i, item = JObj d /\ lookup (lit "id") d = Some i.
Proof.
  intros H. apply task_lines_inv in H
    as (d & c & i & _ & _ & _ & -> & _ & Hi & _).
  now exists d, i.
Qed.

(** X16: the markdown listings are all or nothing.  If one item of the
    answered list is not an object with an ["id"] (for list-tasks: one
    of the items kept by the limit), list-projects, list-labels and
    list-tasks return an "Error:" string instead of the items that
    could be rendered. *)
Theorem listing_all_or_nothing {RT : Runtime} (w : world) (c : tool_call)
    (req : request) (status : Z) (l : list json) (item : json) :
  snd (call_tool w c) = [req] ->
  send w req = Answer status (inr (JArr l)) ->
  is_success status = true ->
  status <> 204%Z ->
  (forall d, item = JObj d -> lookup (lit "id") d = None) ->
  (forall p, c = ListProjects p ->
     ListProjectsInput.response_format p = MARKDOWN ->
     In item l ->
     startswith (lit "Error:") (fst (call_tool w c)) = true)
  /\ (forall p, c = ListLabels p ->
        ListLabelsInput.response_format p = MARKDOWN ->
        In item l ->
        startswith (lit "Error:") (fst (call_tool w c)) = true)
  /\ (forall p, c = ListTasks p ->
        ListTasksInput.response_format p = MARKDOWN ->
        In item (slice_to l (ListTasksInput.limit p)) ->
        startswith (lit "Error:") (fst (call_tool w c)) = true).
Proof.
  intros Hlog Hsend Hok Hst Hbad.
  destruct (call_tool_sent w c Hlog)
    as (ep & m & j & q & token & _ & _ & _ & _ & ->).
  rewrite Hsend. unfold reply_result. rewrite Hok.
  apply Z.eqb_neq in Hst. rewrite Hst. cbn [negb rbind].
  assert (Hno : forall d i, item = JObj d -> lookup (lit "id") d = Some i ->
                            False).
  { intros d i E Hi. rewrite (Hbad d E) in Hi. discriminate. }
  assert (Hret : forall r : result str,
             (forall out, r = inr out -> False) ->
             startswith (lit "Error:") (returned r) = true).
  { intros [e|out] Hr; [apply handle_api_error_prefix|].
    destruct (Hr out eq_refl). }
  repeat split; intros p -> Hfmt Hin; cbn [tool_render]; apply Hret;
    intros out Hout.
  - rewrite Hfmt in Hout.
    destruct l as [|a l]; [destruct Hin|]. cbn [truthy negb] in Hout.
    unfold render_projects in Hout. cbn [py_iter rbind ok] in Hout.
    destruct (for_each project_lines (a :: l)) as [e|ys] eqn:E;
      [discriminate|].
    destruct (for_each_ok_all _ _ E item Hin) as [y Hy].
    destruct (project_lines_ok item Hy) as (d & i & Hd & Hi). eauto.
  - rewrite Hfmt in Hout.
    destruct l as [|a l]; [destruct Hin|]. cbn [truthy negb] in Hout.
    unfold render_labels in Hout. cbn [py_iter rbind ok] in Hout.
    destruct (for_each label_line (a :: l)) as [e|ys] eqn:E;
      [discriminate|].
    destruct (for_each_ok_all _ _ E item Hin) as [y Hy].
    destruct (label_line_ok item Hy) as (d & i & Hd & Hi). eauto.
  - unfold list_tasks_view in Hout. rewrite Hfmt in Hout.
    destruct l as [|a l].
    { unfold slice_to in Hin.
      destruct (0 <=? ListTasksInput.limit p)%Z;
        rewrite firstn_nil in Hin; destruct Hin. }
    cbn [truthy negb py_slice_to rbind ok] in Hout.
    unfold render_tasks in Hout. cbn [py_len py_iter rbind ok] in Hout.
    destruct (for_each task_lines _) as [e|ys] eqn:E; [discriminate|].
    destruct (for_each_ok_all _ _ E item Hin) as [y Hy].
    destruct (task_lines_ok item Hy) as (d & i & Hd & Hi). eauto.
Qed.

Lemma listing_all_or_nothing_witness :
  fst (@call_tool sample_runtime broken_projects_world
         (ListProjects list_projects_markdown))
  = lit "Error: KeyError: 'id'"
  /\ startswith (lit "Error:")
       (fst (@call_tool sample_runtime broken_projects_world
               (ListProjects list_projects_markdown))) = true.
Proof.
  split; [reflexivity|].
  apply (proj1 (@listing_all_or_nothing sample_runtime broken_projects_world
                  (ListProjects list_projects_markdown)
                  (sample_request (lit "projects") (lit "GET"))
                  200 [sample_project; idless_project] idless_project
                  eq_refl eq_refl eq_refl ltac:(discriminate)
                  ltac:(intros d E; injection E as <-; reflexivity))
           list_projects_markdown eq_refl eq_refl).
  right. left. reflexivity.
Defined.

(** ** Details, defaults and missing keys *)

Lemma absent_lookup (d : dict) (keys : list str) (k : str) :
  absent d keys = true -> In k keys -> lookup k d = None.
Proof.
  unfold absent. rewrite forallb_forall. intros H Hin.
  specialize (H k Hin). now destruct (lookup k d).
Qed.

(** X17: the detail view of a task that has only a content and an id
    shows the defaults for everything else: project `Inbox`, "No due
    date", priority "P4 (lowest)", labels "none", created "unknown",
    and neither a description section nor a parent line. *)
Theorem get_task_defaults {RT : Runtime} (d : dict) (content id : json) :
  lookup (lit "content") d = Some content ->
  lookup (lit "id") d = Some id ->
  absent d [lit "project_id"; lit "due"; lit "priority"; lit "labels";
            lit "created_at"; lit "description"; lit "parent_id"] = true ->
  render_task (JObj d)
  = ok (join NL
          [lit "# " ++ py_str content;
           [];
           lit "- **ID**: `" ++ py_str id ++ lit "`";
           lit "- **Project**: `Inbox`";
           lit "- **Due**: No due date";
           lit "- **Priority**: P4 (lowest)";
           lit "- **Labels**: none";
           lit "- **Created**: unknown"]).
Proof.
  intros Hc Hi Habs.
  assert (Hk : forall k,
             In k [lit "project_id"; lit "due"; lit "priority"; lit "labels";
                   lit "created_at"; lit "description"; lit "parent_id"] ->
             lookup k d = None)
    by (intros k; apply absent_lookup; exact Habs).
  unfold render_task, task_detail_lines, labels_text.
  cbn [py_subscript py_get py_get_default rbind ok].
  rewrite Hc, Hi.
  rewrite !Hk by (simpl; auto 10).
  reflexivity.
Qed.

Lemma get_task_defaults_witness :
  @render_task sample_runtime (JObj minimal_task)
  = ok (lit "# Buy milk" ++ NL ++ NL
        ++ lit "- **ID**: `2995104339`" ++ NL
        ++ lit "- **Project**: `Inbox`" ++ NL
        ++ lit "- **Due**: No due date" ++ NL
        ++ lit "- **Priority**: P4 (lowest)" ++ NL
        ++ lit "- **Labels**: none" ++ NL
        ++ lit "- **Created**: unknown").
Proof.
  apply (@get_task_defaults sample_runtime minimal_task
           (JStr (lit "Buy milk")) (JStr (lit "2995104339")));
    reflexivity.
Defined.

(** X18: the detail view of a project that has only a name and an id
    shows colour "default", "No" for favourite and for shared, 0
    comments, and no parent line. *)
Theorem get_project_defaults {RT : Runtime} (d : dict) (name id : json) :
  lookup (lit "name") d = Some name ->
  lookup (lit "id") d = Some id ->
  absent d [lit "color"; lit "is_favorite"; lit "is_shared";
            lit "comment_count"; lit "parent_id"] = true ->
  render_project (JObj d)
  = ok (join NL
          [lit "# " ++ py_str name;
           [];
           lit "- **ID**: `" ++ py_str id ++ lit "`";
           lit "- **Color**: default";
           lit "- **Favorite**: No";
           lit "- **Shared**: No";
           lit "- **Comments**: 0"]).
Proof.
  intros Hn Hi Habs.
  assert (Hk : forall k,
             In k [lit "color"; lit "is_favorite"; lit "is_shared";
                   lit "comment_count"; lit "parent_id"] ->
             lookup k d = None)
    by (intros k; apply absent_lookup; exact Habs).
  unfold render_project.
  cbn [py_subscript py_get py_get_default rbind ok].
  rewrite Hn, Hi.
  rewrite !Hk by (simpl; auto 10).
  reflexivity.
Qed.

Lemma get_project_defaults_witness :
  @render_project sample_runtime (JObj minimal_project)
  = ok (lit "# Home" ++ NL ++ NL
        ++ lit "- **ID**: `2203306141`" ++ NL
        ++ lit "- **Color**: default" ++ NL
        ++ lit "- **Favorite**: No" ++ NL
        ++ lit "- **Shared**: No" ++ NL
        ++ lit "- **Comments**: 0").
Proof.
  apply (@get_project_defaults sample_runtime minimal_project
           (JStr (lit "Home")) (JStr (lit "2203306141")));
    reflexivity.
Defined.

(** X19: an answer that is an object without the key a tool prints
    first makes the tool return "Error: KeyError: '<key>'": ['name'] for
    get-project, create-project and create-label, ['content'] for
    get-task and update-task.  For the three writing tools this is
    returned although the server accepted the request. *)
Theorem missing_key_message {RT : Runtime} (w : world) (c : tool_call)
    (req : request) (status : Z) (d : dict) :
  snd (call_tool w c) = [req] ->
  send w req = Answer status (inr (JObj d)) ->
  is_success status = true ->
  status <> 204%Z ->
  (lookup (lit "name") d = None ->
   (forall p, c = GetProject p ->
      GetProjectInput.response_format p = MARKDOWN ->
      fst (call_tool w c) = lit "Error: KeyError: 'name'")
   /\ (forall p, c = CreateProject p ->
         fst (call_tool w c) = lit "Error: KeyError: 'name'")
   /\ (forall p, c = CreateLabel p ->
         fst (call_tool w c) = lit "Error: KeyError: 'name'"))
  /\ (lookup (lit "content") d = None ->
      (forall p, c = GetTask p ->
         GetTaskInput.response_format p = MARKDOWN ->
         fst (call_tool w c) = lit "Error: KeyError: 'content'")
      /\ (forall p, c = UpdateTask p ->
            fst (call_tool w c) = lit "Error: KeyError: 'content'")).
Proof.
  intros Hlog Hsend Hok Hst.
  destruct (call_tool_sent w c Hlog)
    as (ep & m & j & q & token & _ & _ & _ & _ & ->).
  rewrite Hsend. unfold reply_result. rewrite Hok.
  apply Z.eqb_neq in Hst. rewrite Hst. cbn [negb rbind].
  split; intros Hmiss; repeat split; intros p ->; cbn [tool_render].
  - intros ->. unfold render_project. cbn [py_subscript]. rewrite Hmiss.
    reflexivity.
  - unfold confirm. cbn [py_subscript]. rewrite Hmiss. reflexivity.
  - unfold confirm. cbn [py_subscript]. rewrite Hmiss. reflexivity.
  - intros ->. unfold render_task, task_detail_lines. cbn [py_subscript].
    rewrite Hmiss. reflexivity.
  - unfold confirm. cbn [py_subscript]. rewrite Hmiss. reflexivity.
Qed.

Lemma missing_key_message_witness :
  fst (@call_tool sample_runtime nameless_world (CreateProject plain_project))
  = lit "Error: KeyError: 'name'"
  /\ fst (@call_tool sample_runtime ready_world (GetTask get_task_markdown))
     = lit "Error: KeyError: 'content'".
Proof.
  split.
  - apply (proj1 (proj2 (proj1 (@missing_key_message sample_runtime
                    nameless_world (CreateProject plain_project)
                    (the_request (lit "0123456789abcdef") (lit "projects")
                       (lit "POST") (Some (create_project_data plain_project))
                       None)
                    200 [(lit "id", JStr (lit "2203306142"))]
                    eq_refl eq_refl eq_refl ltac:(discriminate)) eq_refl))
             plain_project eq_refl).
  - apply (proj1 (proj2 (@missing_key_message sample_runtime
                    ready_world (GetTask get_task_markdown)
                    (sample_request (lit "tasks/2995104339") (lit "GET"))
                    200 [] eq_refl eq_refl eq_refl ltac:(discriminate))
                    eq_refl)
             get_task_markdown eq_refl eq_refl).
Defined.



(** X21: the confirmation of create-task names the content and the id
    the server answered; it adds " due ..." with the rendered due value
    exactly when the answer has a due object that is not empty. *)
Theorem created_task_message {RT : Runtime} (d : dict) (content id : json) :
  lookup (lit "content") d = Some content ->
  lookup (lit "id") d = Some id ->
  (truthy (get_or d (lit "due") JNull) = false ->
   created_task (JObj d)
   = ok (CHECK_MARK ++ lit " Created task **" ++ py_str content ++ lit "**"
         ++ lit " (ID: `" ++ py_str id ++ lit "`)"))
  /\ (forall due,
        truthy (get_or d (lit "due") JNull) = true ->
        _format_due (get_or d (lit "due") JNull) = ok due ->
        created_task (JObj d)
        = ok (CHECK_MARK ++ lit " Created task **" ++ py_str content
              ++ lit "**" ++ lit " due " ++ py_str due
              ++ lit " (ID: `" ++ py_str id ++ lit "`)")).
Proof.
  intros Hc Hi. split.
  - intros Hd. unfold created_task, confirm.
    cbn [py_get py_subscript rbind ok].
    fold (get_or d (lit "due") JNull). rewrite Hd, Hc, Hi.
    cbn [rbind ok]. reflexivity.
  - intros due Hd Hdue. unfold created_task, confirm.
    cbn [py_get py_subscript rbind ok].
    fold (get_or d (lit "due") JNull). rewrite Hd, Hdue, Hc, Hi.
    cbn [rbind ok]. reflexivity.
Qed.

Lemma created_task_message_witness :
  @created_task sample_runtime (JObj (sample_task 1 []))
  = ok (CHECK_MARK
        ++ lit " Created task **Buy milk** due 2024-01-15 (ID: `2995104339`)")
  /\ @created_task sample_runtime (JObj minimal_task)
     = ok (CHECK_MARK ++ lit " Created task **Buy milk** (ID: `2995104339`)").
Proof.
  split.
  - apply (proj2 (@created_task_message sample_runtime (sample_task 1 [])
                    (JStr (lit "Buy milk")) (JStr (lit "2995104339"))
                    eq_refl eq_refl) (JStr (lit "2024-01-15")));
      reflexivity.
  - apply (proj1 (@created_task_message sample_runtime minimal_task
                    (JStr (lit "Buy milk")) (JStr (lit "2995104339"))
                    eq_refl eq_refl)).
    reflexivity.
Defined.

(** * The task views as returned *)

(** ** Lines in a joined text *)








(** ** The list view, from the reply to the string returned *)





(** ** The priority label in the views returned *)




(** ** The description in the views returned *)



